(** * no-space-in-parens: spacing inside parentheses

    A shallow embedding of [lib/rules/no-space-in-parens.js].  The rule
    walks [sourceCode.tokensAndComments] once and reports missing or
    rejected spaces next to parenthesis punctuators, with a separate
    treatment of a lone string literal between parentheses.

    JavaScript values are embedded as follows.
    - token types and values are strings, compared with [===];
    - offsets, lines and columns are natural numbers;
    - [tokens[k]] with [k] outside the array is [undefined]: array reads
      return an [option], with indices in [Z] so that [i - 1] and [i - 2]
      below zero stay below zero;
    - a property read on [undefined] throws a [TypeError]: computations
      that may throw live in the [Result] monad, and [&&] / [||] are the
      short-circuit connectives of that monad. *)

From Stdlib Require Import ZArith List String Ascii Bool Lia.
Import ListNotations.
Local Open Scope string_scope.
Local Open Scope Z_scope.
Local Open Scope list_scope.

(** ** Tokens, as the parser hands them over *)

Record Position := { line : nat; column : nat }.

Record Token := {
  type : string;            (* "Punctuator", "String", "Line", "Block", ... *)
  value : string;
  range : nat * nat;        (* [start, end) offsets into the text *)
  loc_start : Position;     (* token.loc.start *)
  loc_end : Position        (* token.loc.end *)
}.

(** [token.start] and [token.end] are the two components of [token.range]. *)
Definition tstart (t : Token) : nat := fst (range t).
Definition tend (t : Token) : nat := snd (range t).

(** ** Reports handed to [context.report] *)

Inductive Message :=
| MISSING_SPACE_MESSAGE
| REJECTED_SPACE_MESSAGE
| UNNECESSARY_SPACE_MESSAGE.

(** A fix as the fixer object returns it: replace [frange] of the text by
    [ftext]. *)
Record Fix := { frange : nat * nat; ftext : string }.

Record Report := { loc : Position; message : Message; fix_ : Fix }.

Module fixer.
(** Modelled from the spec: the host's fixer.  "insert a single space
    character immediately after offset O" and "delete the character range
    [start,end)" are both replacements of a range by a text. *)
Definition removeRange (r : nat * nat) : Fix :=
  {| frange := r; ftext := "" |}.
Definition insertTextAfter (t : Token) (s : string) : Fix :=
  {| frange := (tend t, tend t); ftext := s |}.
Definition insertTextBefore (t : Token) (s : string) : Fix :=
  {| frange := (tstart t, tstart t); ftext := s |}.
End fixer.

(** ** Exceptions thrown by property reads on [undefined] *)

Inductive Result (A : Type) :=
| Ok (a : A)
| TypeError.
Arguments Ok {A} a.
Arguments TypeError {A}.

Definition bind {A B} (m : Result A) (k : A -> Result B) : Result B :=
  match m with
  | Ok a => k a
  | TypeError => TypeError
  end.

Declare Scope js_scope.
Delimit Scope js_scope with js.
Notation "x <- m ;; k" := (bind m (fun x => k))
  (at level 100, m at next level, right associativity) : js_scope.
Notation "a &&& b" := (bind a (fun x : bool => if x then b else Ok false))
  (at level 40, left associativity) : js_scope.
Notation "a ||| b" := (bind a (fun x : bool => if x then Ok true else b))
  (at level 50, left associativity) : js_scope.
Local Open Scope js_scope.

(** [tokens[k]] *)
Definition at_ (tokens : list Token) (k : Z) : option Token :=
  if k <? 0 then None else nth_error tokens (Z.to_nat k).

(** [t.f] where [t] may be [undefined] *)
Definition prop {A} (f : Token -> A) (t : option Token) : Result A :=
  match t with
  | Some x => Ok (f x)
  | None => TypeError
  end.

Definition deref (t : option Token) : Result Token := prop (fun x => x) t.

(** [xs.indexOf(x)] *)
Fixpoint indexOfFrom (xs : list string) (x : string) (k : Z) : Z :=
  match xs with
  | [] => -1
  | y :: ys => if String.eqb y x then k else indexOfFrom ys x (k + 1)
  end.

Definition indexOf (xs : list string) (x : string) : Z := indexOfFrom xs x 0.

(** ** The host: source code object and ast-utils *)

Record SourceCode := {
  text : string;
  tokensAndComments : list Token
}.

Definition isWhitespace (c : ascii) : bool :=
  let n := nat_of_ascii c in
  (Nat.eqb n 32 || Nat.eqb n 9 || Nat.eqb n 10 || Nat.eqb n 11
   || Nat.eqb n 12 || Nat.eqb n 13)%bool.

Fixpoint hasWhitespace (s : string) : bool :=
  match s with
  | EmptyString => false
  | String c s' => (isWhitespace c || hasWhitespace s')%bool
  end.

(** [text.slice(a, b)] for [0 <= a], [0 <= b] *)
Definition slice (s : string) (a b : nat) : string :=
  String.substring a (b - a)%nat s.

(** Modelled from the spec: [sourceCode.isSpaceBetweenTokens], a method of
    the host.  "There is currently a space between them": the text between
    the end of the first token and the start of the second one contains a
    whitespace character. *)
Definition isSpaceBetweenTokens (sourceCode : SourceCode) (first second : Token) : bool :=
  hasWhitespace (slice (text sourceCode) (tend first) (tstart second)).

Module astUtils.
(** Modelled from the spec: [astUtils.isTokenOnSameLine] of
    [lib/ast-utils.js], which is not among the sources.  "They are on the
    same source line": the left token ends on the line on which the right
    token starts. *)
Definition isTokenOnSameLine (left right : Token) : bool :=
  Nat.eqb (line (loc_end left)) (line (loc_start right)).
End astUtils.

(** ** Rule options *)

Record Options := {
  braceException : bool;
  bracketException : bool;
  parenException : bool;
  parenStringException : bool;
  empty : bool
}.

(** [options = {}]: every flag is [undefined], which is falsy. *)
Definition noOptions : Options :=
  {| braceException := false; bracketException := false;
     parenException := false; parenStringException := false;
     empty := false |}.

Record Exceptions := { openers : list string; closers : list string }.

(** A value of [context.options]: the mode string, or the object whose
    [exceptions] property may be absent. *)
Inductive OptionValue :=
| OStr (s : string)
| OObj (exceptions : option (list string)).

Record Rule := { ALWAYS : bool; options : Options }.

Definition mkOptions (exceptionsArrayOptions : list string) : Options :=
  if (0 <? Z.of_nat (List.length exceptionsArrayOptions)) then
    {| braceException := negb (indexOf exceptionsArrayOptions "{}" =? -1);
       bracketException := negb (indexOf exceptionsArrayOptions "[]" =? -1);
       parenException := negb (indexOf exceptionsArrayOptions "()" =? -1);
       parenStringException := negb (indexOf exceptionsArrayOptions "(STRING)" =? -1);
       empty := negb (indexOf exceptionsArrayOptions "empty" =? -1) |}
  else noOptions.

(** The part of [create(context)] that runs before the handler is
    returned. *)
Definition create (context_options : list OptionValue) : Result Rule :=
  let always :=
    match nth_error context_options 0 with
    | Some (OStr s) => String.eqb s "always"
    | _ => false
    end in
  exceptionsArrayOptions <-
    (if Nat.eqb (List.length context_options) 2 then
       match nth_error context_options 1 with
       | Some (OObj (Some l)) => Ok l
       | _ => TypeError            (* [undefined.length] *)
       end
     else Ok []) ;;
  Ok {| ALWAYS := always; options := mkOptions exceptionsArrayOptions |}.

Definition getExceptions (options : Options) : Exceptions :=
  let openers : list string := [] in
  let closers : list string := [] in
  let '(openers, closers) :=
    if braceException options then (openers ++ ["{"], closers ++ ["}"])
    else (openers, closers) in
  let '(openers, closers) :=
    if bracketException options then (openers ++ ["["], closers ++ ["]"])
    else (openers, closers) in
  let '(openers, closers) :=
    if parenException options then (openers ++ ["("], closers ++ [")"])
    else (openers, closers) in
  let '(openers, closers) :=
    if empty options then (openers ++ [")"], closers ++ ["("])
    else (openers, closers) in
  {| openers := openers; closers := closers |}.

(** ** Helpers of the rule *)

Section Helpers.
Variable sourceCode : SourceCode.
Variable ALWAYS : bool.
Variable exceptions : Exceptions.

Definition isOpenerException (token : Token) : bool :=
  String.eqb (type token) "Punctuator"
  && (0 <=? indexOf (openers exceptions) (value token)).

Definition isCloserException (token : Token) : bool :=
  String.eqb (type token) "Punctuator"
  && (0 <=? indexOf (closers exceptions) (value token)).

Definition shouldOpenerHaveSpace (left right : Token) : bool :=
  if isSpaceBetweenTokens sourceCode left right then false
  else if ALWAYS then
    if String.eqb (type right) "Punctuator" && String.eqb (value right) ")"
    then false
    else negb (isOpenerException right)
  else isOpenerException right.

Definition shouldCloserHaveSpace (left right : Token) : bool :=
  if String.eqb (type left) "Punctuator" && String.eqb (value left) "("
  then false
  else if isSpaceBetweenTokens sourceCode left right then false
  else if ALWAYS then negb (isCloserException left)
  else isCloserException left.

Definition shouldOpenerRejectSpace (left right : Token) : bool :=
  if String.eqb (type right) "Line" then false
  else if negb (astUtils.isTokenOnSameLine left right) then false
  else if negb (isSpaceBetweenTokens sourceCode left right) then false
  else if ALWAYS then isOpenerException right
  else negb (isOpenerException right).

Definition shouldCloserRejectSpace (left right : Token) : bool :=
  if String.eqb (type left) "Punctuator" && String.eqb (value left) "("
  then false
  else if negb (astUtils.isTokenOnSameLine left right) then false
  else if negb (isSpaceBetweenTokens sourceCode left right) then false
  else if ALWAYS then isCloserException left
  else negb (isCloserException left).

(** The reports of [checkStringInParen], in the order of the calls to
    [context.report]. *)
Definition checkStringInParen (prevToken token nextToken : Token) : list Report :=
  (if isSpaceBetweenTokens sourceCode prevToken token then
     [ {| loc := loc_start token;
          message := UNNECESSARY_SPACE_MESSAGE;
          fix_ := fixer.removeRange (tend prevToken, tstart token) |} ]
   else [])
  ++
  (if isSpaceBetweenTokens sourceCode token nextToken then
     [ {| loc := loc_start nextToken;
          message := UNNECESSARY_SPACE_MESSAGE;
          fix_ := fixer.removeRange (tend token, tstart nextToken) |} ]
   else []).
End Helpers.

Definition stringInParenAlreadyChecked (tokens : list Token) (i : Z) : Result bool :=
  (prop (fun t => String.eqb (type t) "Punctuator") (at_ tokens i)
     &&& prop (fun t => String.eqb (value t) "(") (at_ tokens i)
     &&& prop (fun t => String.eqb (type t) "String") (at_ tokens (i + 1))
     &&& prop (fun t => String.eqb (value t) ")") (at_ tokens (i + 2)))
  |||
  (prop (fun t => String.eqb (type t) "String") (at_ tokens i)
     &&& prop (fun t => String.eqb (value t) "(") (at_ tokens (i - 1))
     &&& prop (fun t => String.eqb (value t) ")") (at_ tokens (i + 1)))
  |||
  (prop (fun t => String.eqb (type t) "Punctuator") (at_ tokens i)
     &&& prop (fun t => String.eqb (value t) ")") (at_ tokens i)
     &&& prop (fun t => String.eqb (type t) "String") (at_ tokens (i - 1))
     &&& prop (fun t => String.eqb (type t) "Punctuator") (at_ tokens (i - 2))
     &&& prop (fun t => String.eqb (value t) "(") (at_ tokens (i - 2))).

(** ** The scan *)

(** What the handler leaves behind: the reports made, and whether the walk
    ran to the end or was cut short by a [TypeError]. *)
Inductive Outcome :=
| Completed (reports : list Report)
| Threw (reports : list Report).

Definition reported (o : Outcome) : list Report :=
  match o with
  | Completed rs => rs
  | Threw rs => rs
  end.

(** [tokens.forEach(callback)]; [i] is the index of the head of [rest]. *)
Fixpoint forEach (callback : Token -> Z -> Result (list Report))
    (rest : list Token) (i : Z) (done : list Report) : Outcome :=
  match rest with
  | [] => Completed done
  | token :: rest' =>
    match callback token i with
    | TypeError => Threw done
    | Ok rs => forEach callback rest' (i + 1) (done ++ rs)
    end
  end.

Section Scan.
Variable sourceCode : SourceCode.
Variable rule : Rule.

(** The callback of [tokens.forEach] in [checkParenSpaces]: the reports it
    makes for one token.  The four predicates read a property of their
    neighbour argument first (the opener needs-space one through
    [isSpaceBetweenTokens], which reads [second.range]), so on an
    [undefined] neighbour they throw: [prop] lifts them. *)
Definition checkToken (exceptions : Exceptions) (tokens : list Token)
    (token : Token) (i : Z) : Result (list Report) :=
  let prevToken := at_ tokens (i - 1) in
  let nextToken := at_ tokens (i + 1) in
  inString <-
    (Ok (parenStringException (options rule))
       &&& Ok (String.eqb (type token) "String")
       &&& prop (fun t => String.eqb (type t) "Punctuator") prevToken
       &&& prop (fun t => String.eqb (type t) "Punctuator") nextToken
       &&& prop (fun t => String.eqb (value t) "(") prevToken
       &&& prop (fun t => String.eqb (value t) ")") nextToken) ;;
  if inString then
    prev <- deref prevToken ;;
    next <- deref nextToken ;;
    Ok (checkStringInParen sourceCode prev token next)
  else
  checked <-
    (Ok (parenStringException (options rule))
       &&& stringInParenAlreadyChecked tokens i) ;;
  if checked then Ok []
  else if negb (String.eqb (type token) "Punctuator") then Ok []
  else if negb (String.eqb (value token) "(")
          && negb (String.eqb (value token) ")") then Ok []
  else
  openerHave <-
    (Ok (String.eqb (value token) "(")
       &&& prop (shouldOpenerHaveSpace sourceCode (ALWAYS rule) exceptions token)
             nextToken) ;;
  if openerHave then
    Ok [ {| loc := loc_start token;
            message := MISSING_SPACE_MESSAGE;
            fix_ := fixer.insertTextAfter token " " |} ]
  else
  openerReject <-
    (Ok (String.eqb (value token) "(")
       &&& prop (shouldOpenerRejectSpace sourceCode (ALWAYS rule) exceptions token)
             nextToken) ;;
  if openerReject then
    next <- deref nextToken ;;
    Ok [ {| loc := loc_start token;
            message := REJECTED_SPACE_MESSAGE;
            fix_ := fixer.removeRange (snd (range token), fst (range next)) |} ]
  else
  closerHave <-
    (Ok (String.eqb (value token) ")")
       &&& prop (fun prev =>
                   shouldCloserHaveSpace sourceCode (ALWAYS rule) exceptions prev token)
             prevToken) ;;
  if closerHave then
    Ok [ {| loc := loc_start token;
            message := MISSING_SPACE_MESSAGE;
            fix_ := fixer.insertTextBefore token " " |} ]
  else
  closerReject <-
    (Ok (String.eqb (value token) ")")
       &&& prop (fun prev =>
                   shouldCloserRejectSpace sourceCode (ALWAYS rule) exceptions prev token)
             prevToken) ;;
  if closerReject then
    prev <- deref prevToken ;;
    Ok [ {| loc := loc_start token;
            message := REJECTED_SPACE_MESSAGE;
            fix_ := fixer.removeRange (snd (range prev), fst (range token)) |} ]
  else Ok [].

(** The [Program] handler. *)
Definition checkParenSpaces : Outcome :=
  let exceptions := getExceptions (options rule) in
  let tokens := tokensAndComments sourceCode in
  forEach (checkToken exceptions tokens) tokens 0 [].

(** The reports made for the token at index [i] of the stream. *)
Definition reportsAt (i : Z) : Result (list Report) :=
  token <- deref (at_ (tokensAndComments sourceCode) i) ;;
  checkToken (getExceptions (options rule)) (tokensAndComments sourceCode) token i.
End Scan.

(** ** The host around the rule: tokenizer and fix application *)

Definition dquote : ascii := ascii_of_nat 34.
Definition newline : ascii := ascii_of_nat 10.

Definition isIdentifierChar (c : ascii) : bool :=
  let n := nat_of_ascii c in
  ((Nat.leb 97 n && Nat.leb n 122) || (Nat.leb 65 n && Nat.leb n 90)
   || (Nat.leb 48 n && Nat.leb n 57) || Nat.eqb n 95 || Nat.eqb n 36)%bool.

(** The longest prefix of identifier characters, and what follows it. *)
Fixpoint spanIdentifier (s : string) : string * string :=
  match s with
  | EmptyString => (EmptyString, EmptyString)
  | String c s' =>
    if isIdentifierChar c then
      let '(w, rest) := spanIdentifier s' in (String c w, rest)
    else (EmptyString, s)
  end.

(** The rest of a string literal up to and with its closing quote, and what
    follows it. *)
Fixpoint spanLiteral (s : string) : string * string :=
  match s with
  | EmptyString => (EmptyString, EmptyString)
  | String c s' =>
    if Ascii.eqb c dquote then (String c EmptyString, s')
    else let '(w, rest) := spanLiteral s' in (String c w, rest)
  end.

Definition mkToken (ty v : string) (offset ln col : nat) : Token :=
  {| type := ty; value := v;
     range := (offset, offset + String.length v)%nat;
     loc_start := {| line := ln; column := col |};
     loc_end := {| line := ln; column := (col + String.length v)%nat |} |}.

(** Modelled from the spec: the host's tokenizer, for the lexical forms of
    the scenarios: whitespace, identifiers, string literals in double quotes
    and one-character punctuators.  Offsets and columns count from 0, lines
    from 1. *)
Fixpoint tokenizeFrom (fuel : nat) (s : string) (offset ln col : nat) : list Token :=
  match fuel with
  | O => []
  | S fuel' =>
    match s with
    | EmptyString => []
    | String c s' =>
      if Ascii.eqb c newline then tokenizeFrom fuel' s' (offset + 1)%nat (ln + 1)%nat 0%nat
      else if isWhitespace c then tokenizeFrom fuel' s' (offset + 1)%nat ln (col + 1)%nat
      else if Ascii.eqb c dquote then
        let '(w, rest) := spanLiteral s' in
        let v := String c w in
        mkToken "String" v offset ln col
          :: tokenizeFrom fuel' rest (offset + String.length v)%nat ln (col + String.length v)%nat
      else if isIdentifierChar c then
        let '(v, rest) := spanIdentifier s in
        mkToken "Identifier" v offset ln col
          :: tokenizeFrom fuel' rest (offset + String.length v)%nat ln (col + String.length v)%nat
      else
        mkToken "Punctuator" (String c EmptyString) offset ln col
          :: tokenizeFrom fuel' s' (offset + 1)%nat ln (col + 1)%nat
    end
  end.

Definition getSourceCode (txt : string) : SourceCode :=
  {| text := txt;
     tokensAndComments := tokenizeFrom (String.length txt) txt 0 1 0 |}.

(** Modelled from the spec: the host applies the fixes of the reports, in
    the order of the reports, each one replacing its range by its text; a
    fix that starts at or before the end of the previous one is left out.
    [lastPos] is [None] before the first fix. *)
Fixpoint applyFixesFrom (fixes : list Fix) (txt : string) (lastPos : option nat) : string :=
  match fixes with
  | [] =>
    let p := match lastPos with Some p => p | None => 0%nat end in
    slice txt p (String.length txt)
  | f :: fixes' =>
    let '(a, b) := frange f in
    let overlapped := match lastPos with Some p => Nat.leb a p | None => false end in
    if (overlapped || Nat.ltb b a)%bool then applyFixesFrom fixes' txt lastPos
    else
      let p := match lastPos with Some p => p | None => 0%nat end in
      (slice txt p a ++ ftext f ++ applyFixesFrom fixes' txt (Some b))%string
  end.

Definition applyFixes (reports : list Report) (txt : string) : string :=
  applyFixesFrom (map fix_ reports) txt None.

(** One run of the rule on a text, as the host does it. *)
Definition lint (context_options : list OptionValue) (txt : string) : Result Outcome :=
  rule <- create context_options ;;
  Ok (checkParenSpaces (getSourceCode txt) rule).

(** Lint and apply the fixes of the reports. *)
Definition fixOnce (context_options : list OptionValue) (txt : string) : Result string :=
  first <- lint context_options txt ;;
  match first with
  | Threw _ => TypeError
  | Completed reports => Ok (applyFixes reports txt)
  end.

(** Lint, apply the fixes of the reports, lint the fixed text. *)
Definition lintFixed (context_options : list OptionValue) (txt : string) : Result Outcome :=
  fixed <- fixOnce context_options txt ;;
  lint context_options fixed.

Definition quoted (s : string) : string :=
  (String dquote EmptyString ++ s ++ String dquote EmptyString)%string.

(** The report of [checkStringInParen] for the gap between [left] and
    [right]. *)
Definition unnecessarySpace (left right : Token) : Report :=
  {| loc := loc_start right;
     message := UNNECESSARY_SPACE_MESSAGE;
     fix_ := {| frange := (snd (range left), fst (range right)); ftext := "" |} |}.

Definition gapReports (sourceCode : SourceCode) (left right : Token) : list Report :=
  if isSpaceBetweenTokens sourceCode left right
  then [unnecessarySpace left right] else [].

(** ** Example sources and scenarios *)

Definition STRING_rule (always : bool) : Rule :=
  {| ALWAYS := always; options := mkOptions ["(STRING)"] |}.

Definition plain_rule (always : bool) : Rule :=
  {| ALWAYS := always; options := noOptions |}.

(** [( "foo" )] *)
Definition spaced_string : SourceCode :=
  getSourceCode ("( " ++ quoted "foo" ++ " )")%string.

(** [("foo")] *)
Definition tight_string : SourceCode := getSourceCode ("(" ++ quoted "foo" ++ ")")%string.

(** ["use strict";] *)
Definition use_strict : SourceCode := getSourceCode (quoted "use strict" ++ ";")%string.

(** [( )] *)
Definition spaced_empty_pair : SourceCode := getSourceCode "( )".

(** An opening paren, a line break, an identifier:
    [(] on line 1, [a] and [)] on line 2. *)
Definition broken_line : SourceCode :=
  getSourceCode (String "(" (String newline " a)")).

(** [( /* c */ a)], with the comment token as the host lists it. *)
Definition block_comment : SourceCode :=
  {| text := "( /* c */ a)";
     tokensAndComments :=
       [ mkToken "Punctuator" "(" 0 1 0;
         {| type := "Block"; value := " c ";
            range := (2%nat, 9%nat);
            loc_start := {| line := 1; column := 2 |};
            loc_end := {| line := 1; column := 9 |} |};
         mkToken "Identifier" "a" 10 1 10;
         mkToken "Punctuator" ")" 11 1 11 ] |}.

(** The scenarios: options, source text, and the text after the fixes. *)
Definition scenarios : list (list OptionValue * string * string) :=
  [ ([OStr "always"], "()", "()");
    ([OStr "never"], "()", "()");
    ([OStr "always"], "( )", "( )");
    ([OStr "never"], "( )", "()");
    ([OStr "always"], "(a)", "( a )");
    ([OStr "never"], "( a )", "(a)");
    ([OStr "always"; OObj (Some ["()"])], "((a))", "(( a ))");
    ([OStr "always"; OObj (Some ["(STRING)"])],
       "(" ++ quoted "foo" ++ ")", "(" ++ quoted "foo" ++ ")");
    ([OStr "never"; OObj (Some ["(STRING)"])],
       "(" ++ quoted "foo" ++ ")", "(" ++ quoted "foo" ++ ")");
    ([OStr "always"; OObj (Some ["(STRING)"])],
       "( " ++ quoted "foo" ++ " )", "(" ++ quoted "foo" ++ ")");
    ([OStr "never"; OObj (Some ["(STRING)"])],
       "( " ++ quoted "foo" ++ " )", "(" ++ quoted "foo" ++ ")") ]%string.

(** ** Vocabulary of the statements *)

(** [t.type === "Punctuator" && t.value === v] *)
Definition isPunctuator (v : string) (t : Token) : Prop :=
  type t = "Punctuator" /\ value t = v.

(** The four reports of the adjacency checks, as [checkParenSpaces] builds
    them. *)
Definition missingAfter (token : Token) : Report :=
  {| loc := loc_start token; message := MISSING_SPACE_MESSAGE;
     fix_ := fixer.insertTextAfter token " " |}.

Definition missingBefore (token : Token) : Report :=
  {| loc := loc_start token; message := MISSING_SPACE_MESSAGE;
     fix_ := fixer.insertTextBefore token " " |}.

Definition rejectedAt (token left right : Token) : Report :=
  {| loc := loc_start token; message := REJECTED_SPACE_MESSAGE;
     fix_ := fixer.removeRange (snd (range left), fst (range right)) |}.

(** What the fix of a report may do to the gap between [left] and [right]:
    put one space at either end of a gap without whitespace, or remove the
    whole of a gap with whitespace. *)
Definition fixesGap (sourceCode : SourceCode) (left right : Token) (r : Report) : Prop :=
  (message r = MISSING_SPACE_MESSAGE /\
   isSpaceBetweenTokens sourceCode left right = false /\
   ftext (fix_ r) = " " /\
   (frange (fix_ r) = (tend left, tend left) \/
    frange (fix_ r) = (tstart right, tstart right)))
  \/
  ((message r = REJECTED_SPACE_MESSAGE \/ message r = UNNECESSARY_SPACE_MESSAGE) /\
   isSpaceBetweenTokens sourceCode left right = true /\
   ftext (fix_ r) = "" /\
   frange (fix_ r) = (tend left, tstart right)).

(** [(a)] and [( a )] *)
Definition tight_call : SourceCode := getSourceCode "(a)".
Definition spaced_call : SourceCode := getSourceCode "( a )".


(** ["use strict"; f( "x" );] *)
Definition directive_call : SourceCode :=
  getSourceCode (quoted "use strict" ++ "; f( " ++ quoted "x" ++ " );")%string.

(** [x = "a";] *)
Definition assignment : SourceCode := getSourceCode ("x = " ++ quoted "a" ++ ";")%string.

(** [( // c], a line break, [a)], with the comment token as the host lists
    it. *)
Definition line_comment : SourceCode :=
  {| text := String "(" (String " " (String "/" (String "/" (String " " (String "c"
               (String newline "a)"))))));
     tokensAndComments :=
       [ mkToken "Punctuator" "(" 0 1 0;
         {| type := "Line"; value := " c";
            range := (2%nat, 6%nat);
            loc_start := {| line := 1; column := 2 |};
            loc_end := {| line := 1; column := 6 |} |};
         mkToken "Identifier" "a" 7 2 0;
         mkToken "Punctuator" ")" 8 2 1 ] |}.

Definition empty_rule (always : bool) : Rule :=
  {| ALWAYS := always; options := mkOptions ["empty"] |}.

(** * Properties *)

(** Case analysis on the scrutinees of [H], innermost first. *)
Ltac case_inner H :=
  repeat match type of H with
         | context [match ?x with _ => _ end] =>
           lazymatch x with
           | context [match _ with _ => _ end] => fail
           | _ => destruct x eqn:?; cbv beta iota in H
           end
         end.

(** Case analysis on every scrutinee in [H]. *)
Ltac case_matches H :=
  repeat match type of H with
         | context [match ?x with _ => _ end] => destruct x eqn:?
         end.

Arguments isSpaceBetweenTokens : simpl never.
Arguments astUtils.isTokenOnSameLine : simpl never.

(** ** Array reads *)

Lemma at_nth (tokens : list Token) (n : nat) :
  at_ tokens (Z.of_nat n) = nth_error tokens n.
Proof.
  unfold at_. destruct (Z.ltb_spec (Z.of_nat n) 0); [lia|].
  now rewrite Nat2Z.id.
Qed.

Lemma at_Some (tokens : list Token) (k : Z) (t : Token) :
  at_ tokens k = Some t ->
  0 <= k /\ (Z.to_nat k < List.length tokens)%nat /\ nth_error tokens (Z.to_nat k) = Some t.
Proof.
  unfold at_. destruct (Z.ltb_spec k 0); [discriminate|].
  intros E. repeat split; trivial.
  apply nth_error_Some. congruence.
Qed.

Lemma at_None (tokens : list Token) (k : Z) :
  at_ tokens k = None -> k < 0 \/ Z.of_nat (List.length tokens) <= k.
Proof.
  unfold at_. destruct (Z.ltb_spec k 0); [now left|].
  intros E. right. apply nth_error_None in E. lia.
Qed.

(** ** [indexOf] finds exactly the members *)

Lemma indexOfFrom_In (xs : list string) (x : string) (k : Z) :
  0 <= k -> (0 <=? indexOfFrom xs x k) = true <-> In x xs.
Proof.
  revert k. induction xs as [|y ys IH]; intros k Hk; simpl.
  - split; [discriminate | contradiction].
  - destruct (String.eqb_spec y x) as [->|Hne].
    + split; [now left | intros _; now apply Z.leb_le].
    + rewrite IH by lia. split; [now right | intros [E|H]; [contradiction | exact H]].
Qed.

Lemma indexOf_In (xs : list string) (x : string) :
  (0 <=? indexOf xs x) = true <-> In x xs.
Proof. apply indexOfFrom_In. lia. Qed.

Lemma isOpenerException_spec (exceptions : Exceptions) (t : Token) :
  isOpenerException exceptions t = true <->
  type t = "Punctuator" /\ In (value t) (openers exceptions).
Proof.
  unfold isOpenerException. rewrite andb_true_iff, indexOf_In.
  now rewrite String.eqb_eq.
Qed.

Lemma isCloserException_spec (exceptions : Exceptions) (t : Token) :
  isCloserException exceptions t = true <->
  type t = "Punctuator" /\ In (value t) (closers exceptions).
Proof.
  unfold isCloserException. rewrite andb_true_iff, indexOf_In.
  now rewrite String.eqb_eq.
Qed.

(** ** The derived exception sets *)

(** C6: the opener set holds [{] for the brace flag, [[] for the bracket
    flag, [(] for the paren flag and [)] for the empty flag, the closer set
    holds [}], []], [)] and [(] for the same flags, nothing else is in
    either set, and with every flag unset both sets are empty (the string
    flag contributes to neither). *)
Theorem getExceptions_flags (o : Options) (v : string) :
  (In v (openers (getExceptions o)) <->
     (braceException o = true /\ v = "{") \/
     (bracketException o = true /\ v = "[") \/
     (parenException o = true /\ v = "(") \/
     (empty o = true /\ v = ")"))
  /\
  (In v (closers (getExceptions o)) <->
     (braceException o = true /\ v = "}") \/
     (bracketException o = true /\ v = "]") \/
     (parenException o = true /\ v = ")") \/
     (empty o = true /\ v = "("))
  /\
  getExceptions
    {| braceException := false; bracketException := false;
       parenException := false;
       parenStringException := parenStringException o;
       empty := false |}
  = {| openers := []; closers := [] |}.
Proof.
  destruct o as [br bk pa ps em].
  split; [|split]; [| |reflexivity];
    destruct br, bk, pa, em; cbn;
    intuition (subst; auto 6; discriminate).
Qed.

(** ** The adjacency predicates *)

(** C3: the opener needs a space exactly when there is no space after it
    and, under [always], the next token is neither a closing paren nor an
    opener exception, or, under [never], the next token is an opener
    exception. *)
Theorem shouldOpenerHaveSpace_iff (sourceCode : SourceCode) (always : bool)
    (exceptions : Exceptions) (left right : Token) :
  shouldOpenerHaveSpace sourceCode always exceptions left right = true <->
  isSpaceBetweenTokens sourceCode left right = false /\
  if always then
    ~ (type right = "Punctuator" /\ value right = ")") /\
    isOpenerException exceptions right = false
  else
    isOpenerException exceptions right = true.
Proof.
  unfold shouldOpenerHaveSpace.
  destruct (isSpaceBetweenTokens sourceCode left right);
    [split; [discriminate | intros [? _]; discriminate]|].
  destruct always.
  - destruct (String.eqb_spec (type right) "Punctuator") as [Et|Et];
      destruct (String.eqb_spec (value right) ")") as [Ev|Ev]; cbn;
      rewrite ?negb_true_iff; intuition congruence.
  - intuition.
Qed.

(** C4: the opener rejects a space only when there is one, the next token
    starts on the line on which the paren ends and is not a line comment;
    under [always] the next token must then be an opener exception, under
    [never] it must not be one.  A space that spans a line break is never
    rejected, whatever the mode and the exceptions. *)
Theorem shouldOpenerRejectSpace_iff (sourceCode : SourceCode) (always : bool)
    (exceptions : Exceptions) (left right : Token) :
  (shouldOpenerRejectSpace sourceCode always exceptions left right = true <->
   isSpaceBetweenTokens sourceCode left right = true /\
   astUtils.isTokenOnSameLine left right = true /\
   type right <> "Line" /\
   isOpenerException exceptions right = always)
  /\
  (astUtils.isTokenOnSameLine left right = false ->
   shouldOpenerRejectSpace sourceCode always exceptions left right = false).
Proof.
  unfold shouldOpenerRejectSpace.
  destruct (String.eqb_spec (type right) "Line") as [Et|Et];
    destruct (astUtils.isTokenOnSameLine left right);
    destruct (isSpaceBetweenTokens sourceCode left right);
    destruct always; destruct (isOpenerException exceptions right); cbn;
    intuition congruence.
Qed.

(** X4: the closer needs a space exactly when the token before it is not an
    opening paren, there is no whitespace between them, and that token is a
    closer exception under [never], not one under [always]. *)
Lemma shouldCloserHaveSpace_iff (sourceCode : SourceCode) (always : bool)
    (exceptions : Exceptions) (left right : Token) :
  shouldCloserHaveSpace sourceCode always exceptions left right = true <->
  ~ (type left = "Punctuator" /\ value left = "(") /\
  isSpaceBetweenTokens sourceCode left right = false /\
  isCloserException exceptions left = negb always.
Proof.
  unfold shouldCloserHaveSpace.
  destruct (String.eqb_spec (type left) "Punctuator") as [Et|Et];
    destruct (String.eqb_spec (value left) "(") as [Ev|Ev];
    destruct (isSpaceBetweenTokens sourceCode left right);
    destruct always; destruct (isCloserException exceptions left); cbn;
    intuition congruence.
Qed.

(** X5: the closer rejects a space exactly when the token before it is not
    an opening paren, ends on the line of the paren, has whitespace after it,
    and is a closer exception under [always], not one under [never]. *)
Lemma shouldCloserRejectSpace_iff (sourceCode : SourceCode) (always : bool)
    (exceptions : Exceptions) (left right : Token) :
  shouldCloserRejectSpace sourceCode always exceptions left right = true <->
  ~ (type left = "Punctuator" /\ value left = "(") /\
  astUtils.isTokenOnSameLine left right = true /\
  isSpaceBetweenTokens sourceCode left right = true /\
  isCloserException exceptions left = always.
Proof.
  unfold shouldCloserRejectSpace.
  destruct (String.eqb_spec (type left) "Punctuator") as [Et|Et];
    destruct (String.eqb_spec (value left) "(") as [Ev|Ev];
    destruct (astUtils.isTokenOnSameLine left right);
    destruct (isSpaceBetweenTokens sourceCode left right);
    destruct always; destruct (isCloserException exceptions left); cbn;
    intuition congruence.
Qed.

(** Needing a space and rejecting one exclude each other. *)
Lemma opener_have_reject_exclusive (sourceCode : SourceCode) (always : bool)
    (exceptions : Exceptions) (left right : Token) :
  shouldOpenerHaveSpace sourceCode always exceptions left right
  && shouldOpenerRejectSpace sourceCode always exceptions left right = false.
Proof.
  unfold shouldOpenerHaveSpace, shouldOpenerRejectSpace.
  destruct (isSpaceBetweenTokens sourceCode left right); cbn; [reflexivity|].
  rewrite !Tauto.if_same. apply andb_false_r.
Qed.

Lemma closer_have_reject_exclusive (sourceCode : SourceCode) (always : bool)
    (exceptions : Exceptions) (left right : Token) :
  shouldCloserHaveSpace sourceCode always exceptions left right
  && shouldCloserRejectSpace sourceCode always exceptions left right = false.
Proof.
  unfold shouldCloserHaveSpace, shouldCloserRejectSpace.
  destruct (String.eqb (type left) "Punctuator" && String.eqb (value left) "(");
    [reflexivity|].
  destruct (isSpaceBetweenTokens sourceCode left right); cbn; [reflexivity|].
  rewrite Tauto.if_same. apply andb_false_r.
Qed.

(** ** The walk over the tokens *)

Lemma forEach_reported_incl (callback : Token -> Z -> Result (list Report))
    (rest : list Token) (i : Z) (done : list Report) :
  incl done (reported (forEach callback rest i done)).
Proof.
  revert i done. induction rest as [|t rest IH]; intros i done; simpl.
  - apply incl_refl.
  - destruct (callback t i) as [rs|]; simpl; [|apply incl_refl].
    eapply incl_tran; [|apply IH]. now apply incl_appl, incl_refl.
Qed.

(** The reports of a token are among those of the walk as soon as the
    callback returns for every token before it. *)
Lemma forEach_reaches (callback : Token -> Z -> Result (list Report))
    (rest : list Token) (i : Z) (done : list Report)
    (n : nat) (t : Token) (rs : list Report) :
  nth_error rest n = Some t ->
  (forall m t', (m < n)%nat -> nth_error rest m = Some t' ->
                callback t' (i + Z.of_nat m) <> TypeError) ->
  callback t (i + Z.of_nat n) = Ok rs ->
  incl rs (reported (forEach callback rest i done)).
Proof.
  revert i done n. induction rest as [|t0 rest IH]; intros i done n Hn Hbefore Hcb.
  - destruct n; discriminate.
  - destruct n as [|n]; simpl in *.
    + injection Hn as ->. rewrite Z.add_0_r in Hcb. rewrite Hcb.
      eapply incl_tran; [|apply forEach_reported_incl].
      now apply incl_appr, incl_refl.
    + destruct (callback t0 i) as [rs0|] eqn:E0.
      * apply (IH (i + 1) (done ++ rs0) n); trivial.
        -- intros m t' Hm Ht'.
           replace (i + 1 + Z.of_nat m) with (i + Z.of_nat (S m)) by lia.
           apply Hbefore; [lia | exact Ht'].
        -- now replace (i + 1 + Z.of_nat n) with (i + Z.of_nat (S n)) by lia.
      * exfalso. apply (Hbefore 0%nat t0); [lia | reflexivity |].
        now rewrite Z.add_0_r.
Qed.

(** A walk that runs to the end has made the reports of every token. *)
Lemma forEach_completed (callback : Token -> Z -> Result (list Report))
    (rest : list Token) (i : Z) (done rs : list Report) (n : nat) (t : Token) :
  forEach callback rest i done = Completed rs ->
  nth_error rest n = Some t ->
  exists d, callback t (i + Z.of_nat n) = Ok d /\ incl d rs.
Proof.
  revert i done n. induction rest as [|t0 rest IH]; intros i done n Hrun Hn.
  - destruct n; discriminate.
  - simpl in Hrun. destruct (callback t0 i) as [rs0|] eqn:E0; [|discriminate].
    destruct n as [|n]; simpl in Hn.
    + injection Hn as <-. exists rs0. rewrite Z.add_0_r. split; trivial.
      pose proof (forEach_reported_incl callback rest (i + 1) (done ++ rs0)) as Hi.
      rewrite Hrun in Hi. simpl in Hi.
      eapply incl_tran; [|exact Hi]. now apply incl_appr, incl_refl.
    + replace (i + Z.of_nat (S n)) with (i + 1 + Z.of_nat n) by lia.
      now apply (IH (i + 1) (done ++ rs0)).
Qed.

Lemma checkParenSpaces_completed (sourceCode : SourceCode) (rule : Rule)
    (rs : list Report) (i : Z) (t : Token) :
  checkParenSpaces sourceCode rule = Completed rs ->
  at_ (tokensAndComments sourceCode) i = Some t ->
  exists d, reportsAt sourceCode rule i = Ok d /\ incl d rs.
Proof.
  intros Hrun Hi. unfold reportsAt. rewrite Hi. cbn.
  apply at_Some in Hi as (Hpos & _ & Hn).
  destruct (forEach_completed _ _ _ _ _ _ _ Hrun Hn) as (d & Hd & Hincl).
  exists d. split; trivial. now rewrite Z.add_0_l, Z2Nat.id in Hd.
Qed.

(** ** Reports per token *)

Arguments shouldOpenerHaveSpace : simpl never.
Arguments shouldOpenerRejectSpace : simpl never.
Arguments shouldCloserHaveSpace : simpl never.
Arguments shouldCloserRejectSpace : simpl never.
Arguments checkStringInParen : simpl never.
Arguments stringInParenAlreadyChecked : simpl never.

(** The three callbacks on a paren, string, paren triple when the string
    exception is on. *)
Lemma reportsAt_string_triple (sourceCode : SourceCode) (rule : Rule) (i : Z)
    (lp s rp : Token) :
  parenStringException (options rule) = true ->
  at_ (tokensAndComments sourceCode) i = Some lp ->
  at_ (tokensAndComments sourceCode) (i + 1) = Some s ->
  at_ (tokensAndComments sourceCode) (i + 2) = Some rp ->
  type lp = "Punctuator" -> value lp = "(" ->
  type s = "String" ->
  type rp = "Punctuator" -> value rp = ")" ->
  reportsAt sourceCode rule i = Ok [] /\
  reportsAt sourceCode rule (i + 1)
    = Ok (gapReports sourceCode lp s ++ gapReports sourceCode s rp) /\
  reportsAt sourceCode rule (i + 2) = Ok [].
Proof.
  intros Hps H0 H1 H2 Tl Vl Ts Tr Vr.
  unfold reportsAt, checkToken, stringInParenAlreadyChecked.
  replace (i + 1 - 1) with i by lia.
  replace (i + 1 + 1) with (i + 2) by lia.
  replace (i + 2 - 1) with (i + 1) by lia.
  replace (i + 2 - 2) with i by lia.
  rewrite Hps, H0, H1, H2.
  destruct lp as [tl vl ? ? ?], s as [ts vs ? ? ?], rp as [tr vr ? ? ?].
  cbn [type value] in *. subst.
  cbn. repeat split.
Qed.

(** The callback throws, without the string exception, only on an opening
    paren that ends the stream or a closing paren that starts it. *)
Lemma checkToken_throws (sourceCode : SourceCode) (rule : Rule)
    (exceptions : Exceptions) (tokens : list Token) (t : Token) (j : Z) :
  parenStringException (options rule) = false ->
  checkToken sourceCode rule exceptions tokens t j = TypeError ->
  type t = "Punctuator" /\
  ((value t = "(" /\ at_ tokens (j + 1) = None) \/
   (value t = ")" /\ at_ tokens (j - 1) = None)).
Proof.
  intros Hps. unfold checkToken. rewrite Hps.
  destruct (String.eqb_spec (type t) "Punctuator") as [Et|Et];
    destruct (String.eqb_spec (value t) "(") as [Eo|Eo];
    destruct (String.eqb_spec (value t) ")") as [Ec|Ec];
    destruct (at_ tokens (j + 1)), (at_ tokens (j - 1));
    cbn; unfold bind; intros H; case_matches H;
    try discriminate; auto.
Qed.

(** Where the callback can throw: on a string literal or a closing paren
    without a token before it, on a string literal or an opening paren
    without a token after it, and next to a string literal that starts or
    ends the stream. *)
Lemma checkToken_throws_any (sourceCode : SourceCode) (rule : Rule)
    (exceptions : Exceptions) (tokens : list Token) (t : Token) (j : Z) :
  at_ tokens j = Some t ->
  checkToken sourceCode rule exceptions tokens t j = TypeError ->
  (at_ tokens (j - 1) = None /\
   (type t = "String" \/ (type t = "Punctuator" /\ value t = ")"))) \/
  (at_ tokens (j + 1) = None /\
   (type t = "String" \/ (type t = "Punctuator" /\ value t = "("))) \/
  (at_ tokens (j + 2) = None /\
   exists n, at_ tokens (j + 1) = Some n /\ type n = "String") \/
  (at_ tokens (j - 2) = None /\
   exists p, at_ tokens (j - 1) = Some p /\ type p = "String").
Proof.
  intros Hj. unfold checkToken, stringInParenAlreadyChecked. rewrite Hj.
  destruct (at_ tokens (j + 1)) as [n|] eqn:Hn;
    destruct (at_ tokens (j - 1)) as [p|] eqn:Hp;
    destruct (at_ tokens (j + 2)) as [n2|] eqn:Hn2;
    destruct (at_ tokens (j - 2)) as [p2|] eqn:Hp2;
    cbn [prop deref];
    destruct (String.eqb_spec (type t) "Punctuator") as [Et|Et];
    destruct (String.eqb_spec (type t) "String") as [Es|Es];
    try (exfalso; congruence);
    destruct (String.eqb_spec (value t) "(") as [Eo|Eo];
    destruct (String.eqb_spec (value t) ")") as [Ec|Ec];
    try (exfalso; congruence);
    destruct (parenStringException (options rule));
    cbn; auto 6;
    try (destruct (String.eqb_spec (type n) "String") as [En|En]);
    try (destruct (String.eqb_spec (type p) "String") as [Ep|Ep]);
    cbn; eauto 8;
    unfold bind; intros H; case_inner H; try discriminate; eauto 8.
Qed.

(** ** Stream boundaries *)

(** C1: with the string exception on, a stream that starts with a string
    literal makes the first callback read [prevToken.type] on [undefined]:
    the walk throws before any report, it does not pass over the position. *)
Theorem first_string_token_throws (sourceCode : SourceCode) (rule : Rule)
    (t : Token) (rest : list Token) :
  parenStringException (options rule) = true ->
  tokensAndComments sourceCode = t :: rest ->
  type t = "String" ->
  checkParenSpaces sourceCode rule = Threw [].
Proof.
  intros Hps Htok Ty. unfold checkParenSpaces. rewrite Htok.
  cbn [forEach]. unfold checkToken. rewrite Hps, Ty. reflexivity.
Qed.

Lemma first_string_token_throws_witness :
  checkParenSpaces use_strict (STRING_rule false) = Threw []
  /\ lint [OStr "never"; OObj (Some ["(STRING)"])] (text use_strict)
     = Ok (Threw []).
Proof.
  split.
  - apply (first_string_token_throws use_strict (STRING_rule false)
             (mkToken "String" (quoted "use strict") 0 1 0)
             [mkToken "Punctuator" ";" 12 1 12]); reflexivity.
  - reflexivity.
Defined.

(** The same at the other end: a string literal that ends the stream, after
    a punctuator. *)
Example last_string_token_throws :
  lint [OStr "always"; OObj (Some ["(STRING)"])] ("x = " ++ quoted "a")%string
  = Ok (Threw []).
Proof. reflexivity. Qed.

(** The adjacency checks read their neighbour unguarded as well, on streams
    that no parsed program has: a closing paren first, an opening paren
    last. *)
Example closing_paren_first_throws :
  lint [OStr "never"] ") a" = Ok (Threw []).
Proof. reflexivity. Qed.

Example opening_paren_last_throws :
  lint [OStr "never"] "a (" = Ok (Threw []).
Proof. reflexivity. Qed.

Example create_STRING_rule :
  create [OStr "never"; OObj (Some ["(STRING)"])] = Ok (STRING_rule false) /\
  create [OStr "always"; OObj (Some ["(STRING)"])] = Ok (STRING_rule true) /\
  create [OStr "always"] = Ok (plain_rule true) /\
  create [] = Ok (plain_rule false).
Proof. repeat split. Qed.

(** Without the string exception the same streams are walked to the end. *)
Example first_string_token_plain :
  lint [OStr "never"] (text use_strict) = Ok (Completed []).
Proof. reflexivity. Qed.

(** ** A lone string literal between parentheses *)



(** On a stream that starts with a string literal the walk throws at the
    first token and the triple further on is never reached. *)
Example directive_call_scan (always : bool) :
  checkParenSpaces directive_call (STRING_rule always) = Threw [].
Proof. destruct always; reflexivity. Qed.

(** The whole walk on [( "foo" )] and on [("foo")], under both modes. *)
Example spaced_string_scan (always : bool) :
  checkParenSpaces spaced_string (STRING_rule always)
  = Completed
      [ {| loc := {| line := 1; column := 2 |};
           message := UNNECESSARY_SPACE_MESSAGE;
           fix_ := {| frange := (1%nat, 2%nat); ftext := "" |} |};
        {| loc := {| line := 1; column := 8 |};
           message := UNNECESSARY_SPACE_MESSAGE;
           fix_ := {| frange := (7%nat, 8%nat); ftext := "" |} |} ].
Proof. destruct always; reflexivity. Qed.

Example tight_string_scan (always : bool) :
  checkParenSpaces tight_string (STRING_rule always) = Completed [].
Proof. destruct always; reflexivity. Qed.

(** C9, as the code has it: for a gap of the triple that holds whitespace,
    the report is located at the start of the token on the right of the gap
    (the string for the first gap, the closing paren for the second), and
    its fix removes the range from the end of the left token to the start of
    the right one. *)
Theorem string_gap_report_location (sourceCode : SourceCode) (rule : Rule) (i : Z)
    (lp s rp left right : Token) :
  parenStringException (options rule) = true ->
  at_ (tokensAndComments sourceCode) i = Some lp ->
  at_ (tokensAndComments sourceCode) (i + 1) = Some s ->
  at_ (tokensAndComments sourceCode) (i + 2) = Some rp ->
  type lp = "Punctuator" -> value lp = "(" ->
  type s = "String" ->
  type rp = "Punctuator" -> value rp = ")" ->
  (left, right) = (lp, s) \/ (left, right) = (s, rp) ->
  isSpaceBetweenTokens sourceCode left right = true ->
  exists r rs,
    reportsAt sourceCode rule (i + 1) = Ok rs /\ In r rs /\
    message r = UNNECESSARY_SPACE_MESSAGE /\
    loc r = loc_start right /\
    frange (fix_ r) = (tend left, tstart right) /\
    ftext (fix_ r) = "".
Proof.
  intros Hps H0 H1 H2 Tl Vl Ts Tr Vr Hgap Hsp.
  destruct (reportsAt_string_triple sourceCode rule i lp s rp) as (_ & R1 & _);
    trivial.
  exists (unnecessarySpace left right). eexists. split; [exact R1|].
  split; [|now repeat split].
  apply in_or_app. unfold gapReports.
  destruct Hgap as [E|E]; injection E as -> ->; rewrite Hsp; [left|right];
    now left.
Qed.

Lemma string_gap_report_location_witness :
  exists r rs,
    reportsAt spaced_string (STRING_rule false) 1 = Ok rs /\ In r rs /\
    message r = UNNECESSARY_SPACE_MESSAGE /\
    loc r = {| line := 1; column := 2 |} /\
    frange (fix_ r) = (1%nat, 2%nat) /\
    ftext (fix_ r) = "".
Proof.
  exact (string_gap_report_location spaced_string (STRING_rule false) 0
           (mkToken "Punctuator" "(" 0 1 0)
           (mkToken "String" (quoted "foo") 2 1 2)
           (mkToken "Punctuator" ")" 8 1 8)
           (mkToken "Punctuator" "(" 0 1 0)
           (mkToken "String" (quoted "foo") 2 1 2)
           eq_refl eq_refl eq_refl eq_refl eq_refl eq_refl eq_refl
           eq_refl eq_refl (or_introl eq_refl) eq_refl).
Defined.

(** C9 as stated fails on [( "foo" )]: the first gap starts where the
    opening paren ends, at column 1, and no report of the triple is located
    there; the report for that gap is at column 2, where the string
    starts. *)
Lemma string_gap_report_location_counterexample :
  let lp := mkToken "Punctuator" "(" 0 1 0 in
  let s := mkToken "String" (quoted "foo") 2 1 2 in
  at_ (tokensAndComments spaced_string) 0 = Some lp /\
  at_ (tokensAndComments spaced_string) 1 = Some s /\
  isSpaceBetweenTokens spaced_string lp s = true /\
  loc_end lp = {| line := 1; column := 1 |} /\
  exists rs,
    reportsAt spaced_string (STRING_rule false) 1 = Ok rs /\
    forall r, In r rs -> loc r <> loc_end lp.
Proof.
  cbv zeta. repeat split.
  eexists. split; [reflexivity|].
  intros r [<-|[<-|[]]]; discriminate.
Qed.

(** ** Empty pairs *)

(** C5, as the code has it: for an opening paren directly followed by a
    closing paren, without the empty exception, the closing paren gets no
    report under either mode, because both closer predicates are false after
    an opening paren; the opening paren gets no report under [always], and
    under [never] it gets a rejected-space report exactly when the two
    parens have whitespace between them on one line. *)
Theorem empty_pair_reports (sourceCode : SourceCode) (rule : Rule) (i : Z)
    (lp rp : Token) :
  at_ (tokensAndComments sourceCode) i = Some lp ->
  at_ (tokensAndComments sourceCode) (i + 1) = Some rp ->
  type lp = "Punctuator" -> value lp = "(" ->
  type rp = "Punctuator" -> value rp = ")" ->
  empty (options rule) = false ->
  reportsAt sourceCode rule (i + 1) = Ok [] /\
  reportsAt sourceCode rule i =
    Ok (if negb (ALWAYS rule) && isSpaceBetweenTokens sourceCode lp rp
           && astUtils.isTokenOnSameLine lp rp
        then [ {| loc := loc_start lp;
                  message := REJECTED_SPACE_MESSAGE;
                  fix_ := fixer.removeRange (tend lp, tstart rp) |} ]
        else []) /\
  (forall always exceptions right,
      shouldCloserHaveSpace sourceCode always exceptions lp right = false /\
      shouldCloserRejectSpace sourceCode always exceptions lp right = false).
Proof.
  intros H0 H1 Tl Vl Tr Vr He.
  split; [|split].
  3: { intros always exceptions right.
       unfold shouldCloserHaveSpace, shouldCloserRejectSpace.
       now rewrite Tl, Vl. }
  all: unfold reportsAt, checkToken, stringInParenAlreadyChecked;
    replace (i + 1 - 1) with i by lia;
    rewrite H0, H1;
    destruct lp as [tl vl ? ? ?], rp as [tr vr ? ? ?];
    cbn [type value] in *; subst;
    destruct rule as [always [br bk pa ps em]];
    cbn [options empty ALWAYS parenStringException] in *; subst em;
    unfold shouldCloserHaveSpace, shouldCloserRejectSpace,
      shouldOpenerHaveSpace, shouldOpenerRejectSpace, isOpenerException.
  - destruct ps; reflexivity.
  - destruct ps, always, br, bk, pa; cbn;
      destruct (isSpaceBetweenTokens sourceCode _ _),
               (astUtils.isTokenOnSameLine _ _); reflexivity.
Qed.

Lemma empty_pair_reports_witness :
  reportsAt spaced_empty_pair (plain_rule true) 1 = Ok [] /\
  reportsAt spaced_empty_pair (plain_rule true) 0 = Ok [] /\
  (forall always exceptions right,
      shouldCloserHaveSpace spaced_empty_pair always exceptions
        (mkToken "Punctuator" "(" 0 1 0) right = false /\
      shouldCloserRejectSpace spaced_empty_pair always exceptions
        (mkToken "Punctuator" "(" 0 1 0) right = false).
Proof.
  exact (empty_pair_reports spaced_empty_pair (plain_rule true) 0
           (mkToken "Punctuator" "(" 0 1 0) (mkToken "Punctuator" ")" 2 1 2)
           eq_refl eq_refl eq_refl eq_refl eq_refl eq_refl eq_refl).
Defined.

(** C5 as stated fails on [( )] under [never] without exceptions: the
    opening paren of the empty pair gets a rejected-space report. *)
Lemma empty_pair_reports_counterexample :
  create [OStr "never"] = Ok (plain_rule false) /\
  empty (options (plain_rule false)) = false /\
  tokensAndComments spaced_empty_pair
  = [mkToken "Punctuator" "(" 0 1 0; mkToken "Punctuator" ")" 2 1 2] /\
  reportsAt spaced_empty_pair (plain_rule false) 0
  = Ok [ {| loc := {| line := 1; column := 0 |};
            message := REJECTED_SPACE_MESSAGE;
            fix_ := {| frange := (1%nat, 2%nat); ftext := "" |} |} ] /\
  checkParenSpaces spaced_empty_pair (plain_rule false)
  = Completed [ {| loc := {| line := 1; column := 0 |};
                   message := REJECTED_SPACE_MESSAGE;
                   fix_ := {| frange := (1%nat, 2%nat); ftext := "" |} |} ].
Proof. repeat split. Qed.

(** ** One report per paren *)

(** C7: the callback on a punctuator makes at most one report, which is a
    missing-space or a rejected-space one; needing a space and rejecting one
    never hold together, for an opener and for a closer, since the first
    wants no whitespace in the gap and the second wants some. *)
Theorem paren_at_most_one_report (sourceCode : SourceCode) (rule : Rule) (i : Z)
    (token : Token) (rs : list Report) :
  at_ (tokensAndComments sourceCode) i = Some token ->
  type token = "Punctuator" ->
  reportsAt sourceCode rule i = Ok rs ->
  (List.length rs <= 1)%nat /\
  (forall r, In r rs ->
             message r = MISSING_SPACE_MESSAGE \/ message r = REJECTED_SPACE_MESSAGE) /\
  (forall always exceptions left right,
      shouldOpenerHaveSpace sourceCode always exceptions left right
      && shouldOpenerRejectSpace sourceCode always exceptions left right = false) /\
  (forall always exceptions left right,
      shouldCloserHaveSpace sourceCode always exceptions left right
      && shouldCloserRejectSpace sourceCode always exceptions left right = false).
Proof.
  intros Hi Ty Hr.
  split; [|split; [|split]];
    [| | intros; apply opener_have_reject_exclusive
       | intros; apply closer_have_reject_exclusive].
  all: unfold reportsAt in Hr; rewrite Hi in Hr;
    cbn [deref prop bind] in Hr; unfold checkToken in Hr;
    rewrite Ty in Hr;
    destruct (parenStringException (options rule)); cbn in Hr; unfold bind in Hr;
    case_matches Hr; try discriminate; injection Hr as <-; cbn;
    try lia; intros r Hin; repeat destruct Hin as [<-|Hin]; cbn; tauto.
Qed.

Lemma paren_at_most_one_report_witness :
  exists rs,
    reportsAt (getSourceCode "(a)") (plain_rule true) 0 = Ok rs /\
    (List.length rs <= 1)%nat /\
    (forall r, In r rs ->
               message r = MISSING_SPACE_MESSAGE \/ message r = REJECTED_SPACE_MESSAGE).
Proof.
  eexists. split; [reflexivity|].
  pose proof (paren_at_most_one_report (getSourceCode "(a)") (plain_rule true) 0
                (mkToken "Punctuator" "(" 0 1 0) _ eq_refl eq_refl eq_refl)
    as (Hlen & Hmsg & _).
  exact (conj Hlen Hmsg).
Defined.

(** ** Comments after an opening paren *)

(** C10: under [never] without exceptions, an opening paren followed on its
    line by a block comment, with whitespace between them, gets a
    rejected-space report whose fix removes that whitespace; the walk makes
    this report unless the stream starts with a closing paren, on which the
    first callback throws. *)
Theorem block_comment_space_rejected (sourceCode : SourceCode) (i : Z)
    (lp c : Token) :
  at_ (tokensAndComments sourceCode) i = Some lp ->
  at_ (tokensAndComments sourceCode) (i + 1) = Some c ->
  type lp = "Punctuator" -> value lp = "(" ->
  type c = "Block" ->
  isSpaceBetweenTokens sourceCode lp c = true ->
  astUtils.isTokenOnSameLine lp c = true ->
  let rule := {| ALWAYS := false; options := noOptions |} in
  let r := {| loc := loc_start lp;
              message := REJECTED_SPACE_MESSAGE;
              fix_ := fixer.removeRange (snd (range lp), fst (range c)) |} in
  create [OStr "never"] = Ok rule /\
  reportsAt sourceCode rule i = Ok [r] /\
  ((forall t, at_ (tokensAndComments sourceCode) 0 = Some t ->
              type t = "Punctuator" -> value t <> ")") ->
   In r (reported (checkParenSpaces sourceCode rule))).
Proof.
  intros H0 H1 Tl Vl Tc Hsp Hline rule r.
  assert (Hcb : checkToken sourceCode rule (getExceptions (options rule))
                  (tokensAndComments sourceCode) lp i = Ok [r]).
  { unfold checkToken. rewrite H1, Tl, Vl. subst r. cbn.
    unfold shouldOpenerHaveSpace, shouldOpenerRejectSpace, isOpenerException.
    rewrite Tc, Hsp, Hline. reflexivity. }
  split; [reflexivity|]. split.
  - unfold reportsAt. rewrite H0. exact Hcb.
  - intros Hfirst.
    destruct (at_Some _ _ _ H0) as (Hpos & Hlt & Hn).
    apply (forEach_reaches _ _ 0 [] (Z.to_nat i) lp [r]); trivial.
    + intros m t' Hm Ht' Hthrow.
      rewrite Z.add_0_l in Hthrow.
      apply checkToken_throws in Hthrow as (Tt & [[_ Hnone]|[Vc Hnone]]);
        [| |reflexivity].
      * apply at_None in Hnone. lia.
      * apply at_None in Hnone.
        assert (m = 0%nat) as -> by lia.
        apply (Hfirst t'); trivial.
    + now rewrite Z.add_0_l, Z2Nat.id.
    + now left.
Qed.

Lemma block_comment_space_rejected_witness :
  let r := {| loc := {| line := 1; column := 0 |};
              message := REJECTED_SPACE_MESSAGE;
              fix_ := {| frange := (1%nat, 2%nat); ftext := "" |} |} in
  reportsAt block_comment (plain_rule false) 0 = Ok [r] /\
  In r (reported (checkParenSpaces block_comment (plain_rule false))).
Proof.
  pose proof (block_comment_space_rejected block_comment 0
                (mkToken "Punctuator" "(" 0 1 0)
                {| type := "Block"; value := " c ";
                   range := (2%nat, 9%nat);
                   loc_start := {| line := 1; column := 2 |};
                   loc_end := {| line := 1; column := 9 |} |}
                eq_refl eq_refl eq_refl eq_refl eq_refl eq_refl eq_refl)
    as (_ & Hat & Hwalk).
  split; [exact Hat|].
  apply Hwalk. intros t Ht _ Hv. injection Ht as <-. discriminate Hv.
Defined.

Lemma shouldOpenerRejectSpace_iff_witness :
  let lp := mkToken "Punctuator" "(" 0 1 0 in
  let a := mkToken "Identifier" "a" 3 2 1 in
  at_ (tokensAndComments broken_line) 0 = Some lp /\
  at_ (tokensAndComments broken_line) 1 = Some a /\
  isSpaceBetweenTokens broken_line lp a = true /\
  shouldOpenerRejectSpace broken_line false (getExceptions noOptions) lp a = false.
Proof.
  cbv zeta. refine (conj eq_refl (conj eq_refl (conj eq_refl _))).
  exact (proj2 (shouldOpenerRejectSpace_iff broken_line false (getExceptions noOptions)
                  (mkToken "Punctuator" "(" 0 1 0) (mkToken "Identifier" "a" 3 2 1))
               eq_refl).
Defined.

(** ** Fixing and scanning again *)

(** C8: on each scenario the first scan runs to the end, its fixes give
    the expected text, and the scan of that text makes no report. *)
Theorem scenarios_fixed_in_one_pass :
  Forall (fun '(context_options, txt, fixed) =>
            fixOnce context_options txt = Ok fixed /\
            lint context_options fixed = Ok (Completed []) /\
            lintFixed context_options txt = Ok (Completed []))
         scenarios.
Proof.
  unfold scenarios.
  repeat (apply Forall_cons; [repeat split; vm_compute; reflexivity|]).
  apply Forall_nil.
Qed.

(** * Further properties of the rule *)

(** ** Options *)

Lemma indexOf_neq_minus1 (xs : list string) (x : string) :
  negb (indexOf xs x =? -1) = true <-> In x xs.
Proof.
  rewrite <- indexOf_In. unfold indexOf.
  assert (H : forall k, 0 <= k -> indexOfFrom xs x k = -1 \/ k <= indexOfFrom xs x k).
  { induction xs as [|y ys IH]; intros k Hk; simpl; [now left|].
    destruct (String.eqb y x); [right; lia|].
    destruct (IH (k + 1)) as [E|E]; [lia|now left|right; lia]. }
  destruct (H 0) as [E|E]; [lia| |].
  - rewrite E. split; discriminate.
  - rewrite negb_true_iff, Z.eqb_neq, Z.leb_le. lia.
Qed.

(** X1: [create] throws exactly when two options are given and the second
    one has no [exceptions] array, which reads [.length] of [undefined];
    with any other number of options the second one is not looked at. *)
Theorem create_throws_iff (context_options : list OptionValue) :
  create context_options = TypeError <->
  List.length context_options = 2%nat /\
  forall l, nth_error context_options 1 <> Some (OObj (Some l)).
Proof.
  unfold create.
  destruct (Nat.eqb_spec (List.length context_options) 2) as [E|E];
    cbv beta iota.
  - destruct (nth_error context_options 1) as [[s|[l|]]|]; cbn [bind]; split;
      try reflexivity; try discriminate;
      try (intros _; split; [exact E|congruence]).
    intros [_ H]. now destruct (H l).
  - cbn [bind]. split; [discriminate|]. now intros [? _].
Qed.

(** X2: with a mode and an exceptions array, [create] returns a rule whose
    mode is [always] only for the string ["always"], and whose five flags
    say which of the five names are in the array, wherever and however often
    they occur. *)
Theorem create_flags (mode : OptionValue) (exceptionsArrayOptions : list string) :
  exists rule,
    create [mode; OObj (Some exceptionsArrayOptions)] = Ok rule /\
    (ALWAYS rule = true <-> mode = OStr "always") /\
    (braceException (options rule) = true <-> In "{}" exceptionsArrayOptions) /\
    (bracketException (options rule) = true <-> In "[]" exceptionsArrayOptions) /\
    (parenException (options rule) = true <-> In "()" exceptionsArrayOptions) /\
    (parenStringException (options rule) = true <-> In "(STRING)" exceptionsArrayOptions) /\
    (empty (options rule) = true <-> In "empty" exceptionsArrayOptions).
Proof.
  eexists. split; [reflexivity|]. cbn [ALWAYS options nth_error]. split.
  - destruct mode as [s|o]; [|split; discriminate].
    rewrite String.eqb_eq. split; congruence.
  - unfold mkOptions. destruct exceptionsArrayOptions as [|x xs].
    + cbn. repeat split; (discriminate || contradiction).
    + change (0 <? Z.of_nat (List.length (x :: xs))) with true.
      cbn [braceException bracketException parenException parenStringException empty].
      rewrite !indexOf_neq_minus1. repeat split; trivial.
Qed.

(** X3: a token is an opener exception of the sets built from the flags
    exactly when it is the punctuator [{] with the brace flag, [[] with the
    bracket flag, [(] with the paren flag or [)] with the empty flag; it is a
    closer exception exactly when it is [}], []], [)] or [(] with the same
    flags.  A token of another type never is one, whatever its value. *)
Theorem exceptions_of_flags (o : Options) (t : Token) :
  (isOpenerException (getExceptions o) t = true <->
   (braceException o = true /\ isPunctuator "{" t) \/
   (bracketException o = true /\ isPunctuator "[" t) \/
   (parenException o = true /\ isPunctuator "(" t) \/
   (empty o = true /\ isPunctuator ")" t))
  /\
  (isCloserException (getExceptions o) t = true <->
   (braceException o = true /\ isPunctuator "}" t) \/
   (bracketException o = true /\ isPunctuator "]" t) \/
   (parenException o = true /\ isPunctuator ")" t) \/
   (empty o = true /\ isPunctuator "(" t)).
Proof.
  rewrite isOpenerException_spec, isCloserException_spec. unfold isPunctuator.
  destruct o as [br bk pa ps em].
  split; destruct br, bk, pa, em; cbn; intuition (subst; auto 6; try discriminate).
Qed.

(** ** The two modes *)

(** X6: for an opening paren and a next token on its line that is neither a
    closing paren nor a line comment, the opener checks complain (need a
    space or reject one) under exactly one of the two modes, the exceptions
    being the same. *)
Theorem opener_modes_complementary (sourceCode : SourceCode) (always : bool)
    (exceptions : Exceptions) (left right : Token) :
  astUtils.isTokenOnSameLine left right = true ->
  ~ isPunctuator ")" right ->
  type right <> "Line" ->
  shouldOpenerHaveSpace sourceCode always exceptions left right
  || shouldOpenerRejectSpace sourceCode always exceptions left right
  = negb (shouldOpenerHaveSpace sourceCode (negb always) exceptions left right
          || shouldOpenerRejectSpace sourceCode (negb always) exceptions left right).
Proof.
  unfold isPunctuator. intros Hline Hc Hl.
  unfold shouldOpenerHaveSpace, shouldOpenerRejectSpace. rewrite Hline.
  destruct (String.eqb_spec (type right) "Line") as [|_]; [contradiction|].
  destruct (String.eqb_spec (type right) "Punctuator") as [Et|Et];
    destruct (String.eqb_spec (value right) ")") as [Ev|Ev];
    try tauto;
    destruct (isSpaceBetweenTokens sourceCode left right), always,
             (isOpenerException exceptions right); reflexivity.
Qed.

Lemma opener_modes_complementary_witness :
  let lp := mkToken "Punctuator" "(" 0 1 0 in
  let a := mkToken "Identifier" "a" 2 1 2 in
  at_ (tokensAndComments spaced_call) 0 = Some lp /\
  at_ (tokensAndComments spaced_call) 1 = Some a /\
  shouldOpenerHaveSpace spaced_call true (getExceptions noOptions) lp a
  || shouldOpenerRejectSpace spaced_call true (getExceptions noOptions) lp a
  = negb (shouldOpenerHaveSpace spaced_call (negb true) (getExceptions noOptions) lp a
          || shouldOpenerRejectSpace spaced_call (negb true) (getExceptions noOptions) lp a).
Proof.
  cbv zeta. refine (conj eq_refl (conj eq_refl _)).
  apply (opener_modes_complementary spaced_call true (getExceptions noOptions)
           (mkToken "Punctuator" "(" 0 1 0) (mkToken "Identifier" "a" 2 1 2)).
  - reflexivity.
  - intros [H _]. discriminate H.
  - discriminate.
Defined.

(** X7: for a closing paren and a previous token on its line that is not an
    opening paren, the closer checks complain under exactly one of the two
    modes, the exceptions being the same. *)
Theorem closer_modes_complementary (sourceCode : SourceCode) (always : bool)
    (exceptions : Exceptions) (left right : Token) :
  astUtils.isTokenOnSameLine left right = true ->
  ~ isPunctuator "(" left ->
  shouldCloserHaveSpace sourceCode always exceptions left right
  || shouldCloserRejectSpace sourceCode always exceptions left right
  = negb (shouldCloserHaveSpace sourceCode (negb always) exceptions left right
          || shouldCloserRejectSpace sourceCode (negb always) exceptions left right).
Proof.
  unfold isPunctuator. intros Hline Ho.
  unfold shouldCloserHaveSpace, shouldCloserRejectSpace. rewrite Hline.
  destruct (String.eqb_spec (type left) "Punctuator") as [Et|Et];
    destruct (String.eqb_spec (value left) "(") as [Ev|Ev];
    try tauto;
    destruct (isSpaceBetweenTokens sourceCode left right), always,
             (isCloserException exceptions left); reflexivity.
Qed.

Lemma closer_modes_complementary_witness :
  let a := mkToken "Identifier" "a" 1 1 1 in
  let rp := mkToken "Punctuator" ")" 2 1 2 in
  at_ (tokensAndComments tight_call) 1 = Some a /\
  at_ (tokensAndComments tight_call) 2 = Some rp /\
  shouldCloserHaveSpace tight_call false (getExceptions noOptions) a rp
  || shouldCloserRejectSpace tight_call false (getExceptions noOptions) a rp
  = negb (shouldCloserHaveSpace tight_call (negb false) (getExceptions noOptions) a rp
          || shouldCloserRejectSpace tight_call (negb false) (getExceptions noOptions) a rp).
Proof.
  cbv zeta. refine (conj eq_refl (conj eq_refl _)).
  apply (closer_modes_complementary tight_call false (getExceptions noOptions)
           (mkToken "Identifier" "a" 1 1 1) (mkToken "Punctuator" ")" 2 1 2)).
  - reflexivity.
  - intros [H _]. discriminate H.
Defined.

(** ** Reports of one token, outside the string exception *)

(** X8: for an opening paren with a next token, which is not a string
    literal if the string exception is on, the callback reports a missing
    space (fix: one space after the paren) when the opener needs one,
    otherwise a rejected space (fix: remove the gap) when the opener rejects
    one, otherwise nothing; the report is located at the paren. *)
Theorem opener_reports (sourceCode : SourceCode) (rule : Rule) (i : Z)
    (token next : Token) :
  at_ (tokensAndComments sourceCode) i = Some token ->
  at_ (tokensAndComments sourceCode) (i + 1) = Some next ->
  isPunctuator "(" token ->
  parenStringException (options rule) = false \/ type next <> "String" ->
  let exceptions := getExceptions (options rule) in
  reportsAt sourceCode rule i =
  Ok (if shouldOpenerHaveSpace sourceCode (ALWAYS rule) exceptions token next
      then [ {| loc := loc_start token; message := MISSING_SPACE_MESSAGE;
                fix_ := {| frange := (tend token, tend token); ftext := " " |} |} ]
      else if shouldOpenerRejectSpace sourceCode (ALWAYS rule) exceptions token next
      then [ {| loc := loc_start token; message := REJECTED_SPACE_MESSAGE;
                fix_ := {| frange := (tend token, tstart next); ftext := "" |} |} ]
      else []).
Proof.
  intros Hi Hn [Tt Vt] Hps exceptions.
  unfold reportsAt, checkToken, stringInParenAlreadyChecked.
  rewrite Hi, Hn. cbn [deref prop bind]. rewrite Tt, Vt.
  assert (Hskip : parenStringException (options rule)
                  && String.eqb (type next) "String" = false).
  { destruct Hps as [->|Hne]; [reflexivity|].
    apply andb_false_intro2. now apply String.eqb_neq. }
  destruct (parenStringException (options rule));
    destruct (String.eqb (type next) "String"); try discriminate; cbn;
    fold exceptions;
    destruct (shouldOpenerHaveSpace _ _ _ _ _); cbn; trivial;
    destruct (shouldOpenerRejectSpace _ _ _ _ _); reflexivity.
Qed.

Lemma opener_reports_witness :
  reportsAt tight_call (plain_rule true) 0
  = Ok [ {| loc := {| line := 1; column := 0 |};
            message := MISSING_SPACE_MESSAGE;
            fix_ := {| frange := (1%nat, 1%nat); ftext := " " |} |} ].
Proof.
  exact (opener_reports tight_call (plain_rule true) 0
           (mkToken "Punctuator" "(" 0 1 0) (mkToken "Identifier" "a" 1 1 1)
           eq_refl eq_refl (conj eq_refl eq_refl) (or_introl eq_refl)).
Defined.

(** X9: for a closing paren with a previous token, which is not a string
    literal if the string exception is on, the callback reports a missing
    space (fix: one space before the paren) when the closer needs one,
    otherwise a rejected space (fix: remove the gap) when the closer rejects
    one, otherwise nothing; the report is located at the paren. *)
Theorem closer_reports (sourceCode : SourceCode) (rule : Rule) (i : Z)
    (prev token : Token) :
  at_ (tokensAndComments sourceCode) (i - 1) = Some prev ->
  at_ (tokensAndComments sourceCode) i = Some token ->
  isPunctuator ")" token ->
  parenStringException (options rule) = false \/ type prev <> "String" ->
  let exceptions := getExceptions (options rule) in
  reportsAt sourceCode rule i =
  Ok (if shouldCloserHaveSpace sourceCode (ALWAYS rule) exceptions prev token
      then [ {| loc := loc_start token; message := MISSING_SPACE_MESSAGE;
                fix_ := {| frange := (tstart token, tstart token); ftext := " " |} |} ]
      else if shouldCloserRejectSpace sourceCode (ALWAYS rule) exceptions prev token
      then [ {| loc := loc_start token; message := REJECTED_SPACE_MESSAGE;
                fix_ := {| frange := (tend prev, tstart token); ftext := "" |} |} ]
      else []).
Proof.
  intros Hp Hi [Tt Vt] Hps exceptions.
  unfold reportsAt, checkToken, stringInParenAlreadyChecked.
  rewrite Hi, Hp. cbn [deref prop bind]. rewrite Tt, Vt.
  assert (Hskip : parenStringException (options rule)
                  && String.eqb (type prev) "String" = false).
  { destruct Hps as [->|Hne]; [reflexivity|].
    apply andb_false_intro2. now apply String.eqb_neq. }
  destruct (parenStringException (options rule));
    destruct (String.eqb (type prev) "String"); try discriminate; cbn;
    fold exceptions;
    destruct (shouldCloserHaveSpace _ _ _ _ _); cbn; trivial;
    destruct (shouldCloserRejectSpace _ _ _ _ _); reflexivity.
Qed.

Lemma closer_reports_witness :
  reportsAt spaced_call (plain_rule false) 2
  = Ok [ {| loc := {| line := 1; column := 4 |};
            message := REJECTED_SPACE_MESSAGE;
            fix_ := {| frange := (3%nat, 4%nat); ftext := "" |} |} ].
Proof.
  exact (closer_reports spaced_call (plain_rule false) 2
           (mkToken "Identifier" "a" 2 1 2) (mkToken "Punctuator" ")" 4 1 4)
           eq_refl eq_refl (conj eq_refl eq_refl) (or_introl eq_refl)).
Defined.

(** X10: a token that is not a paren, and not a string literal if the string
    exception is on, gets no report and its callback does not throw,
    wherever it stands in the stream. *)
Theorem other_tokens_no_report (sourceCode : SourceCode) (rule : Rule) (i : Z)
    (token : Token) :
  at_ (tokensAndComments sourceCode) i = Some token ->
  ~ isPunctuator "(" token -> ~ isPunctuator ")" token ->
  parenStringException (options rule) = false \/ type token <> "String" ->
  reportsAt sourceCode rule i = Ok [].
Proof.
  unfold isPunctuator. intros Hi No Nc Hps.
  unfold reportsAt, checkToken, stringInParenAlreadyChecked.
  rewrite Hi. cbn [deref prop bind].
  assert (Hskip : parenStringException (options rule)
                  && String.eqb (type token) "String" = false).
  { destruct Hps as [->|Hne]; [reflexivity|].
    apply andb_false_intro2. now apply String.eqb_neq. }
  destruct (String.eqb_spec (type token) "Punctuator") as [Et|Et];
    destruct (String.eqb_spec (value token) "(") as [Eo|Eo];
    destruct (String.eqb_spec (value token) ")") as [Ec|Ec];
    try tauto;
    destruct (parenStringException (options rule));
    destruct (String.eqb (type token) "String"); try discriminate;
    reflexivity.
Qed.

Lemma other_tokens_no_report_witness :
  reportsAt tight_call (STRING_rule true) 1 = Ok [].
Proof.
  apply (other_tokens_no_report tight_call (STRING_rule true) 1
           (mkToken "Identifier" "a" 1 1 1)).
  - reflexivity.
  - intros [H _]. discriminate H.
  - intros [H _]. discriminate H.
  - right. discriminate.
Defined.

(** X11: a string literal with a token on either side gets no report unless
    the string exception is on and its neighbours are an opening and a
    closing paren. *)
Theorem string_token_reports (sourceCode : SourceCode) (rule : Rule) (i : Z)
    (prev token next : Token) :
  at_ (tokensAndComments sourceCode) (i - 1) = Some prev ->
  at_ (tokensAndComments sourceCode) i = Some token ->
  at_ (tokensAndComments sourceCode) (i + 1) = Some next ->
  type token = "String" ->
  (isPunctuator "(" prev /\ isPunctuator ")" next ->
   parenStringException (options rule) = false) ->
  reportsAt sourceCode rule i = Ok [].
Proof.
  unfold isPunctuator. intros Hp Hi Hn Tt Hno.
  unfold reportsAt, checkToken, stringInParenAlreadyChecked.
  rewrite Hi, Hp, Hn. cbn [deref prop bind]. rewrite Tt.
  destruct (parenStringException (options rule)); [|reflexivity].
  destruct (String.eqb_spec (type prev) "Punctuator") as [Ep|Ep];
    destruct (String.eqb_spec (value prev) "(") as [Vp|Vp];
    destruct (String.eqb_spec (type next) "Punctuator") as [En|En];
    destruct (String.eqb_spec (value next) ")") as [Vn|Vn];
    try reflexivity.
  now discriminate Hno.
Qed.

Lemma string_token_reports_witness :
  reportsAt assignment (STRING_rule false) 2 = Ok [].
Proof.
  apply (string_token_reports assignment (STRING_rule false) 2
           (mkToken "Punctuator" "=" 2 1 2)
           (mkToken "String" (quoted "a") 4 1 4)
           (mkToken "Punctuator" ";" 7 1 7)).
  - reflexivity.
  - reflexivity.
  - reflexivity.
  - reflexivity.
  - intros [[_ H] _]. discriminate H.
Defined.

(** X12: an opening paren followed by whitespace and a line comment gets no
    report, under either mode and with any exceptions. *)
Theorem line_comment_after_opener (sourceCode : SourceCode) (rule : Rule) (i : Z)
    (token comment : Token) :
  at_ (tokensAndComments sourceCode) i = Some token ->
  at_ (tokensAndComments sourceCode) (i + 1) = Some comment ->
  isPunctuator "(" token ->
  type comment = "Line" ->
  isSpaceBetweenTokens sourceCode token comment = true ->
  reportsAt sourceCode rule i = Ok [].
Proof.
  intros Hi Hn [Tt Vt] Tc Hs.
  unfold reportsAt, checkToken, stringInParenAlreadyChecked.
  rewrite Hi, Hn. cbn [deref prop bind]. rewrite Tt, Vt, Tc.
  unfold shouldOpenerHaveSpace, shouldOpenerRejectSpace. rewrite Hs, Tc.
  destruct (parenStringException (options rule)); reflexivity.
Qed.

Lemma line_comment_after_opener_witness :
  reportsAt line_comment (plain_rule false) 0 = Ok [].
Proof.
  exact (line_comment_after_opener line_comment (plain_rule false) 0
           (mkToken "Punctuator" "(" 0 1 0)
           {| type := "Line"; value := " c";
              range := (2%nat, 6%nat);
              loc_start := {| line := 1; column := 2 |};
              loc_end := {| line := 1; column := 6 |} |}
           eq_refl eq_refl (conj eq_refl eq_refl) eq_refl eq_refl).
Defined.

(** X13: with the empty exception, the closing paren of an empty pair still
    gets no report; the opening paren gets a missing-space report under
    [never] when the parens touch, a rejected-space report under [always]
    when they have whitespace between them on one line, and nothing
    otherwise. *)
Theorem empty_exception_pair (sourceCode : SourceCode) (rule : Rule) (i : Z)
    (lp rp : Token) :
  at_ (tokensAndComments sourceCode) i = Some lp ->
  at_ (tokensAndComments sourceCode) (i + 1) = Some rp ->
  isPunctuator "(" lp -> isPunctuator ")" rp ->
  empty (options rule) = true ->
  reportsAt sourceCode rule (i + 1) = Ok [] /\
  reportsAt sourceCode rule i =
    Ok (if isSpaceBetweenTokens sourceCode lp rp then
          if ALWAYS rule && astUtils.isTokenOnSameLine lp rp
          then [ {| loc := loc_start lp; message := REJECTED_SPACE_MESSAGE;
                    fix_ := {| frange := (tend lp, tstart rp); ftext := "" |} |} ]
          else []
        else
          if ALWAYS rule then []
          else [ {| loc := loc_start lp; message := MISSING_SPACE_MESSAGE;
                    fix_ := {| frange := (tend lp, tend lp); ftext := " " |} |} ]).
Proof.
  intros H0 H1 [Tl Vl] [Tr Vr] He.
  split.
  all: unfold reportsAt, checkToken, stringInParenAlreadyChecked;
    replace (i + 1 - 1) with i by lia;
    rewrite H0, H1;
    destruct lp as [tl vl ? ? ?], rp as [tr vr ? ? ?];
    cbn [type value] in *; subst;
    destruct rule as [always [br bk pa ps em]];
    cbn [options empty ALWAYS parenStringException] in *; subst em;
    unfold shouldCloserHaveSpace, shouldCloserRejectSpace,
      shouldOpenerHaveSpace, shouldOpenerRejectSpace, isOpenerException.
  - destruct ps; reflexivity.
  - destruct ps, always, br, bk, pa; cbn;
      repeat match goal with
             | |- context [isSpaceBetweenTokens ?a ?b ?c] =>
               destruct (isSpaceBetweenTokens a b c); cbn
             | |- context [astUtils.isTokenOnSameLine ?a ?b] =>
               destruct (astUtils.isTokenOnSameLine a b); cbn
             end; reflexivity.
Qed.

Lemma empty_exception_pair_witness :
  reportsAt spaced_empty_pair (empty_rule true) 1 = Ok [] /\
  reportsAt spaced_empty_pair (empty_rule true) 0
  = Ok [ {| loc := {| line := 1; column := 0 |};
            message := REJECTED_SPACE_MESSAGE;
            fix_ := {| frange := (1%nat, 2%nat); ftext := "" |} |} ].
Proof.
  exact (empty_exception_pair spaced_empty_pair (empty_rule true) 0
           (mkToken "Punctuator" "(" 0 1 0) (mkToken "Punctuator" ")" 2 1 2)
           eq_refl eq_refl (conj eq_refl eq_refl) (conj eq_refl eq_refl) eq_refl).
Defined.

(** ** The whole walk *)

Lemma forEach_all_return (callback : Token -> Z -> Result (list Report))
    (rest : list Token) (i : Z) (done : list Report) :
  (forall n t, nth_error rest n = Some t ->
               callback t (i + Z.of_nat n) <> TypeError) ->
  exists rs, forEach callback rest i done = Completed rs.
Proof.
  revert i done. induction rest as [|t0 rest IH]; intros i done Hall; simpl.
  - now exists done.
  - destruct (callback t0 i) as [rs0|] eqn:E0.
    + apply IH. intros n t Hn.
      replace (i + 1 + Z.of_nat n) with (i + Z.of_nat (S n)) by lia.
      now apply Hall.
    + exfalso. apply (Hall 0%nat t0); [reflexivity|]. now rewrite Z.add_0_r.
Qed.

Lemma forEach_reported_origin (callback : Token -> Z -> Result (list Report))
    (rest : list Token) (i : Z) (done : list Report) (r : Report) :
  In r (reported (forEach callback rest i done)) ->
  In r done \/
  exists n t rs, nth_error rest n = Some t /\
                 callback t (i + Z.of_nat n) = Ok rs /\ In r rs.
Proof.
  revert i done. induction rest as [|t0 rest IH]; intros i done Hin; simpl in Hin.
  - now left.
  - destruct (callback t0 i) as [rs0|] eqn:E0; simpl in Hin; [|now left].
    destruct (IH _ _ Hin) as [Hd|(n & t & rs & Hn & Hcb & Hr)].
    + apply in_app_or in Hd as [Hd|Hd]; [now left|].
      right. exists 0%nat, t0, rs0. rewrite Z.add_0_r. auto.
    + right. exists (S n), t, rs. repeat split; trivial.
      now replace (i + Z.of_nat (S n)) with (i + 1 + Z.of_nat n) by lia.
Qed.

Lemma forEach_completed_concat (callback : Token -> Z -> Result (list Report))
    (rest : list Token) (i : Z) (done rs : list Report) :
  forEach callback rest i done = Completed rs ->
  exists rss,
    rs = done ++ List.concat rss /\
    List.length rss = List.length rest /\
    forall n t, nth_error rest n = Some t ->
                exists d, nth_error rss n = Some d /\
                          callback t (i + Z.of_nat n) = Ok d.
Proof.
  revert i done. induction rest as [|t0 rest IH]; intros i done Hrun; simpl in Hrun.
  - injection Hrun as <-. exists []. rewrite app_nil_r. repeat split.
    intros [|n] t Hn; discriminate.
  - destruct (callback t0 i) as [rs0|] eqn:E0; [|discriminate].
    destruct (IH _ _ Hrun) as (rss & -> & Hlen & Hall).
    exists (rs0 :: rss). simpl. rewrite <- app_assoc. repeat split; [now f_equal|].
    intros [|n] t Hn; simpl in Hn.
    + injection Hn as <-. exists rs0. now rewrite Z.add_0_r.
    + destruct (Hall n t Hn) as (d & Hd & Hcb). exists d. split; trivial.
      now replace (i + Z.of_nat (S n)) with (i + 1 + Z.of_nat n) by lia.
Qed.

Lemma last_index (tokens : list Token) (k : Z) (t : Token) :
  at_ tokens k = Some t -> at_ tokens (k + 1) = None ->
  k = Z.of_nat (List.length tokens) - 1.
Proof.
  intros Hk Hn. apply at_Some in Hk as (Hpos & Hlt & _).
  apply at_None in Hn. lia.
Qed.

Lemma first_index (tokens : list Token) (k : Z) (t : Token) :
  at_ tokens k = Some t -> at_ tokens (k - 1) = None -> k = 0.
Proof.
  intros Hk Hn. apply at_Some in Hk as (Hpos & Hlt & _).
  apply at_None in Hn. lia.
Qed.

(** X14: the walk runs to the end on every stream whose first token is not
    a closing paren and whose last token is not an opening paren, provided
    that, when the string exception is on, neither of them is a string
    literal. *)
Theorem walk_completes (sourceCode : SourceCode) (rule : Rule) :
  let tokens := tokensAndComments sourceCode in
  let last := Z.of_nat (List.length tokens) - 1 in
  (forall t, at_ tokens 0 = Some t ->
             (parenStringException (options rule) = true -> type t <> "String") /\
             ~ isPunctuator ")" t) ->
  (forall t, at_ tokens last = Some t ->
             (parenStringException (options rule) = true -> type t <> "String") /\
             ~ isPunctuator "(" t) ->
  exists rs, checkParenSpaces sourceCode rule = Completed rs.
Proof.
  intros tokens last. unfold isPunctuator. intros Hfirst Hlast.
  unfold checkParenSpaces.
  apply forEach_all_return. intros n t Hn Hthrow.
  rewrite Z.add_0_l in Hthrow. fold tokens in Hthrow, Hn.
  assert (Hj : at_ tokens (Z.of_nat n) = Some t) by now rewrite at_nth.
  destruct (parenStringException (options rule)) eqn:Hps.
  - apply checkToken_throws_any in Hthrow
      as [(Hnone & Hc)|[(Hnone & Hc)|[(Hnone & x & Hx & Tx)|(Hnone & x & Hx & Tx)]]];
      trivial.
    + rewrite (first_index _ _ _ Hj Hnone) in Hj.
      destruct (Hfirst t Hj) as (Hs & Hp). specialize (Hs eq_refl). tauto.
    + rewrite (last_index _ _ _ Hj Hnone) in Hj.
      destruct (Hlast t Hj) as (Hs & Hp). specialize (Hs eq_refl). tauto.
    + replace (Z.of_nat n + 2) with (Z.of_nat n + 1 + 1) in Hnone by lia.
      rewrite (last_index _ _ _ Hx Hnone) in Hx.
      destruct (Hlast x Hx) as (Hs & _). now apply Hs.
    + replace (Z.of_nat n - 2) with (Z.of_nat n - 1 - 1) in Hnone by lia.
      rewrite (first_index _ _ _ Hx Hnone) in Hx.
      destruct (Hfirst x Hx) as (Hs & _). now apply Hs.
  - apply checkToken_throws in Hthrow as (Tt & [[Vo Hnone]|[Vc Hnone]]);
      trivial.
    + rewrite (last_index _ _ _ Hj Hnone) in Hj.
      destruct (Hlast t Hj) as (_ & Hp). tauto.
    + rewrite (first_index _ _ _ Hj Hnone) in Hj.
      destruct (Hfirst t Hj) as (_ & Hp). tauto.
Qed.

Lemma walk_completes_witness :
  exists rs, checkParenSpaces spaced_string (STRING_rule false) = Completed rs.
Proof.
  apply (walk_completes spaced_string (STRING_rule false)).
  - intros t Ht. injection Ht as <-. split.
    + intros _. discriminate.
    + intros [_ H]. discriminate H.
  - intros t Ht. injection Ht as <-. split.
    + intros _. discriminate.
    + intros [_ H]. discriminate H.
Defined.

(** X15: the walk runs to the end exactly when no callback throws; a single
    throwing token anywhere in the stream cuts the walk short. *)
Theorem walk_completes_iff (sourceCode : SourceCode) (rule : Rule) :
  (exists rs, checkParenSpaces sourceCode rule = Completed rs) <->
  forall i t, at_ (tokensAndComments sourceCode) i = Some t ->
              reportsAt sourceCode rule i <> TypeError.
Proof.
  split.
  - intros (rs & Hrun) i t Hi Hthrow.
    destruct (checkParenSpaces_completed _ _ _ _ _ Hrun Hi) as (d & Hd & _).
    congruence.
  - intros Hall. apply forEach_all_return. intros n t Hn Hthrow.
    apply (Hall (Z.of_nat n) t); [now rewrite at_nth|].
    unfold reportsAt. rewrite at_nth, Hn. exact Hthrow.
Qed.

(** X16: the reports of a walk that runs to the end are the reports of the
    tokens, token after token in stream order, each token's reports in the
    order in which its callback makes them. *)
Theorem walk_in_token_order (sourceCode : SourceCode) (rule : Rule)
    (rs : list Report) :
  checkParenSpaces sourceCode rule = Completed rs ->
  exists rss,
    rs = List.concat rss /\
    List.length rss = List.length (tokensAndComments sourceCode) /\
    forall n, (n < List.length rss)%nat ->
              exists d, nth_error rss n = Some d /\
                        reportsAt sourceCode rule (Z.of_nat n) = Ok d.
Proof.
  intros Hrun. apply forEach_completed_concat in Hrun as (rss & -> & Hlen & Hall).
  exists rss. repeat split; trivial.
  intros n Hn. rewrite Hlen in Hn.
  destruct (nth_error (tokensAndComments sourceCode) n) as [t|] eqn:Ht;
    [|apply nth_error_None in Ht; lia].
  destruct (Hall n t Ht) as (d & Hd & Hcb). exists d. split; trivial.
  unfold reportsAt. now rewrite at_nth, Ht.
Qed.

Lemma walk_in_token_order_witness :
  exists rss,
    [ {| loc := {| line := 1; column := 0 |};
         message := MISSING_SPACE_MESSAGE;
         fix_ := {| frange := (1%nat, 1%nat); ftext := " " |} |};
      {| loc := {| line := 1; column := 2 |};
         message := MISSING_SPACE_MESSAGE;
         fix_ := {| frange := (2%nat, 2%nat); ftext := " " |} |} ]
    = List.concat rss /\
    List.length rss = List.length (tokensAndComments tight_call) /\
    forall n, (n < List.length rss)%nat ->
              exists d, nth_error rss n = Some d /\
                        reportsAt tight_call (plain_rule true) (Z.of_nat n) = Ok d.
Proof.
  exact (walk_in_token_order tight_call (plain_rule true) _ eq_refl).
Defined.

(** ** What a report can be *)

(** The shapes of what the callback returns. *)
Lemma checkToken_inv (sourceCode : SourceCode) (rule : Rule)
    (exceptions : Exceptions) (tokens : list Token) (t : Token) (j : Z)
    (rs : list Report) :
  checkToken sourceCode rule exceptions tokens t j = Ok rs ->
  rs = [] \/
  (parenStringException (options rule) = true /\ type t = "String" /\
   exists p n, at_ tokens (j - 1) = Some p /\ at_ tokens (j + 1) = Some n /\
               isPunctuator "(" p /\ isPunctuator ")" n /\
               rs = checkStringInParen sourceCode p t n) \/
  (isPunctuator "(" t /\
   exists n, at_ tokens (j + 1) = Some n /\
     ((shouldOpenerHaveSpace sourceCode (ALWAYS rule) exceptions t n = true /\
       rs = [missingAfter t]) \/
      (shouldOpenerRejectSpace sourceCode (ALWAYS rule) exceptions t n = true /\
       rs = [rejectedAt t t n]))) \/
  (isPunctuator ")" t /\
   exists p, at_ tokens (j - 1) = Some p /\
     ((shouldCloserHaveSpace sourceCode (ALWAYS rule) exceptions p t = true /\
       rs = [missingBefore t]) \/
      (shouldCloserRejectSpace sourceCode (ALWAYS rule) exceptions p t = true /\
       rs = [rejectedAt t p t]))).
Proof.
  unfold checkToken, isPunctuator.
  destruct (at_ tokens (j + 1)) as [n|] eqn:Hn;
    destruct (at_ tokens (j - 1)) as [p|] eqn:Hp;
    cbn [prop deref];
    destruct (String.eqb_spec (type t) "Punctuator") as [Et|Et];
    destruct (String.eqb_spec (type t) "String") as [Es|Es];
    try (exfalso; congruence);
    destruct (String.eqb_spec (value t) "(") as [Eo|Eo];
    destruct (String.eqb_spec (value t) ")") as [Ec|Ec];
    try (exfalso; congruence);
    destruct (parenStringException (options rule));
    cbn; unfold bind; intros H; case_inner H;
    try discriminate; injection H as <-; auto;
    repeat match goal with
           | E : String.eqb _ _ = true |- _ => apply String.eqb_eq in E
           end;
    first
      [ right; left; split; [reflexivity|]; split; [assumption|];
        do 2 eexists; repeat split; eassumption
      | right; right; left; split; [split; assumption|];
        eexists; split; [reflexivity|];
        first [ left; split; [assumption|reflexivity]
              | right; split; [assumption|reflexivity] ]
      | right; right; right; split; [split; assumption|];
        eexists; split; [reflexivity|];
        first [ left; split; [assumption|reflexivity]
              | right; split; [assumption|reflexivity] ] ].
Qed.

Lemma opener_have_no_space sc a e l r :
  shouldOpenerHaveSpace sc a e l r = true -> isSpaceBetweenTokens sc l r = false.
Proof. unfold shouldOpenerHaveSpace. now destruct (isSpaceBetweenTokens sc l r). Qed.

Lemma closer_have_no_space sc a e l r :
  shouldCloserHaveSpace sc a e l r = true -> isSpaceBetweenTokens sc l r = false.
Proof.
  unfold shouldCloserHaveSpace.
  destruct (_ && _); [discriminate|]. now destruct (isSpaceBetweenTokens sc l r).
Qed.

Lemma opener_reject_space sc a e l r :
  shouldOpenerRejectSpace sc a e l r = true -> isSpaceBetweenTokens sc l r = true.
Proof.
  unfold shouldOpenerRejectSpace.
  destruct (String.eqb _ _); [discriminate|].
  destruct (astUtils.isTokenOnSameLine l r); [|discriminate].
  now destruct (isSpaceBetweenTokens sc l r).
Qed.

Lemma closer_reject_space sc a e l r :
  shouldCloserRejectSpace sc a e l r = true -> isSpaceBetweenTokens sc l r = true.
Proof.
  unfold shouldCloserRejectSpace.
  destruct (_ && _); [discriminate|].
  destruct (astUtils.isTokenOnSameLine l r); [|discriminate].
  now destruct (isSpaceBetweenTokens sc l r).
Qed.

Lemma checkStringInParen_In sc p t n r :
  In r (checkStringInParen sc p t n) ->
  (isSpaceBetweenTokens sc p t = true /\ r = unnecessarySpace p t) \/
  (isSpaceBetweenTokens sc t n = true /\ r = unnecessarySpace t n).
Proof.
  unfold checkStringInParen. intros H. apply in_app_or in H as [H|H].
  - destruct (isSpaceBetweenTokens sc p t); [|contradiction].
    destruct H as [<-|[]]. now left.
  - destruct (isSpaceBetweenTokens sc t n); [|contradiction].
    destruct H as [<-|[]]. now right.
Qed.

(** X17: every report of the walk, whether it runs to the end or not,
    concerns the gap between two adjacent tokens of which the left one is an
    opening paren or the right one a closing paren; it is located at the
    start of one of the two; a missing-space report stands for a gap without
    whitespace and its fix puts one space at an end of the gap, any other
    report stands for a gap with whitespace and its fix removes exactly that
    gap.  No fix touches the text of a token. *)
Theorem reports_fix_paren_gaps (sourceCode : SourceCode) (rule : Rule) (r : Report) :
  In r (reported (checkParenSpaces sourceCode rule)) ->
  exists k left right,
    at_ (tokensAndComments sourceCode) k = Some left /\
    at_ (tokensAndComments sourceCode) (k + 1) = Some right /\
    (isPunctuator "(" left \/ isPunctuator ")" right) /\
    (loc r = loc_start left \/ loc r = loc_start right) /\
    fixesGap sourceCode left right r.
Proof.
  intros Hin. apply forEach_reported_origin in Hin
    as [[]|(m & t & rs & Hm & Hcb & Hr)].
  rewrite Z.add_0_l in Hcb.
  assert (Hj : at_ (tokensAndComments sourceCode) (Z.of_nat m) = Some t)
    by now rewrite at_nth.
  set (j := Z.of_nat m) in *.
  assert (Hj' : at_ (tokensAndComments sourceCode) (j - 1 + 1) = Some t)
    by now replace (j - 1 + 1) with j by lia.
  unfold fixesGap.
  apply checkToken_inv in Hcb
    as [->|[(_ & _ & p & n & Hp & Hn & Pp & Pn & ->)
           |[(Pt & n & Hn & [(Hs & ->)|(Hs & ->)])
            |(Pt & p & Hp & [(Hs & ->)|(Hs & ->)])]]].
  - contradiction.
  - apply checkStringInParen_In in Hr as [(Hs & ->)|(Hs & ->)].
    + exists (j - 1), p, t. cbn. auto 10.
    + exists j, t, n. cbn. auto 10.
  - destruct Hr as [<-|[]]. apply opener_have_no_space in Hs.
    exists j, t, n. cbn. auto 10.
  - destruct Hr as [<-|[]]. apply opener_reject_space in Hs.
    exists j, t, n. cbn. auto 10.
  - destruct Hr as [<-|[]]. apply closer_have_no_space in Hs.
    exists (j - 1), p, t. cbn. auto 10.
  - destruct Hr as [<-|[]]. apply closer_reject_space in Hs.
    exists (j - 1), p, t. cbn. auto 10.
Qed.

Lemma reports_fix_paren_gaps_witness :
  let r := {| loc := {| line := 1; column := 4 |};
              message := REJECTED_SPACE_MESSAGE;
              fix_ := {| frange := (3%nat, 4%nat); ftext := "" |} |} in
  In r (reported (checkParenSpaces spaced_call (plain_rule false))) /\
  exists k left right,
    at_ (tokensAndComments spaced_call) k = Some left /\
    at_ (tokensAndComments spaced_call) (k + 1) = Some right /\
    (isPunctuator "(" left \/ isPunctuator ")" right) /\
    (loc r = loc_start left \/ loc r = loc_start right) /\
    fixesGap spaced_call left right r.
Proof.
  cbv zeta. split; [right; left; reflexivity|].
  apply (reports_fix_paren_gaps spaced_call (plain_rule false)).
  right. left. reflexivity.
Defined.

(** X18: without exceptions, every report of the walk is a rejected-space
    one under [never] and a missing-space one under [always]: [never] without
    exceptions never asks for a space, [always] without exceptions never
    forbids one. *)
Theorem plain_modes_one_message (sourceCode : SourceCode) (always : bool) (r : Report) :
  In r (reported (checkParenSpaces sourceCode
                    {| ALWAYS := always; options := noOptions |})) ->
  message r = if always then MISSING_SPACE_MESSAGE else REJECTED_SPACE_MESSAGE.
Proof.
  intros Hin. apply forEach_reported_origin in Hin
    as [[]|(m & t & rs & Hm & Hcb & Hr)].
  apply checkToken_inv in Hcb
    as [->|[(Hps & _)
           |[(Pt & n & Hn & [(Hs & ->)|(Hs & ->)])
            |(Pt & p & Hp & [(Hs & ->)|(Hs & ->)])]]];
    try contradiction; try discriminate;
    destruct Hr as [<-|[]]; cbn in *; destruct always; trivial; exfalso.
  - unfold shouldOpenerHaveSpace in Hs.
    destruct (isSpaceBetweenTokens _ _ _); [discriminate|].
    unfold isOpenerException in Hs. cbn in Hs.
    now rewrite andb_false_r in Hs.
  - unfold shouldOpenerRejectSpace in Hs.
    destruct (String.eqb _ _); [discriminate|].
    destruct (negb _); [discriminate|]. destruct (negb _); [discriminate|].
    unfold isOpenerException in Hs. cbn in Hs.
    now rewrite andb_false_r in Hs.
  - unfold shouldCloserHaveSpace in Hs.
    destruct (_ && _); [discriminate|].
    destruct (isSpaceBetweenTokens _ _ _); [discriminate|].
    unfold isCloserException in Hs. cbn in Hs.
    now rewrite andb_false_r in Hs.
  - unfold shouldCloserRejectSpace in Hs.
    destruct (_ && _); [discriminate|].
    destruct (negb _); [discriminate|]. destruct (negb _); [discriminate|].
    unfold isCloserException in Hs. cbn in Hs.
    now rewrite andb_false_r in Hs.
Qed.

Lemma plain_modes_one_message_witness :
  let r := {| loc := {| line := 1; column := 0 |};
              message := REJECTED_SPACE_MESSAGE;
              fix_ := {| frange := (1%nat, 2%nat); ftext := "" |} |} in
  In r (reported (checkParenSpaces spaced_call (plain_rule false))) /\
  message r = REJECTED_SPACE_MESSAGE.
Proof.
  cbv zeta. split; [left; reflexivity|].
  apply (plain_modes_one_message spaced_call false).
  left. reflexivity.
Defined.
